(** * ckanext-cloudstorage: a shallow embedding of [storage.py] and [config.py]

    The storage adapter of ckanext-cloudstorage is modelled over an explicit
    world: the libcloud container (a map from object names to objects), the
    files of the process' working directory, the uploaded stream and a log of
    the calls the adapter makes to the cloud library and to [hashlib].
    [hashlib.md5] is given executably in module [Md5]. *)

From Stdlib Require Import ZArith String Ascii List.
From Stdlib Require Import Init.Byte Strings.Byte.
From stdpp Require Import base gmap strings list pretty.
Import ListNotations.
Open Scope Z_scope.

(** ** [hashlib.md5] and [binascii] *)
Module Md5.

Definition bytes := list byte.

Definition byte_to_Z (b : byte) : Z := Z.of_N (Byte.to_N b).
Definition Z_to_byte (z : Z) : byte :=
  match Byte.of_N (Z.to_N (Z.land z 255)) with Some b => b | None => x00 end.

Definition mask32 (x : Z) : Z := Z.land x (Z.ones 32).
Definition add32 (a b : Z) : Z := mask32 (a + b).
Definition not32 (x : Z) : Z := Z.lxor x (Z.ones 32).
Definition rotl32 (x c : Z) : Z :=
  mask32 (Z.lor (Z.shiftl x c) (Z.shiftr x (32 - c))).

Definition K : list Z :=
  [0xd76aa478; 0xe8c7b756; 0x242070db; 0xc1bdceee; 0xf57c0faf; 0x4787c62a;
   0xa8304613; 0xfd469501; 0x698098d8; 0x8b44f7af; 0xffff5bb1; 0x895cd7be;
   0x6b901122; 0xfd987193; 0xa679438e; 0x49b40821; 0xf61e2562; 0xc040b340;
   0x265e5a51; 0xe9b6c7aa; 0xd62f105d; 0x02441453; 0xd8a1e681; 0xe7d3fbc8;
   0x21e1cde6; 0xc33707d6; 0xf4d50d87; 0x455a14ed; 0xa9e3e905; 0xfcefa3f8;
   0x676f02d9; 0x8d2a4c8a; 0xfffa3942; 0x8771f681; 0x6d9d6122; 0xfde5380c;
   0xa4beea44; 0x4bdecfa9; 0xf6bb4b60; 0xbebfbc70; 0x289b7ec6; 0xeaa127fa;
   0xd4ef3085; 0x04881d05; 0xd9d4d039; 0xe6db99e5; 0x1fa27cf8; 0xc4ac5665;
   0xf4292244; 0x432aff97; 0xab9423a7; 0xfc93a039; 0x655b59c3; 0x8f0ccc92;
   0xffeff47d; 0x85845dd1; 0x6fa87e4f; 0xfe2ce6e0; 0xa3014314; 0x4e0811a1;
   0xf7537e82; 0xbd3af235; 0x2ad7d2bb; 0xeb86d391].

Definition shifts : list Z :=
  [7; 12; 17; 22; 7; 12; 17; 22; 7; 12; 17; 22; 7; 12; 17; 22;
   5; 9; 14; 20; 5; 9; 14; 20; 5; 9; 14; 20; 5; 9; 14; 20;
   4; 11; 16; 23; 4; 11; 16; 23; 4; 11; 16; 23; 4; 11; 16; 23;
   6; 10; 15; 21; 6; 10; 15; 21; 6; 10; 15; 21; 6; 10; 15; 21].

Record st := mk_st { sa : Z; sb : Z; sc : Z; sd : Z }.

Definition init : st := mk_st 0x67452301 0xefcdab89 0x98badcfe 0x10325476.

(** little-endian 32-bit words of a 64-byte block *)
Fixpoint words (l : bytes) : list Z :=
  match l with
  | b0 :: b1 :: b2 :: b3 :: r =>
      (byte_to_Z b0 + Z.shiftl (byte_to_Z b1) 8 + Z.shiftl (byte_to_Z b2) 16
       + Z.shiftl (byte_to_Z b3) 24) :: words r
  | _ => []
  end.

Definition round (m : list Z) (s : st) (i : nat) : st :=
  let '(mk_st a b c d) := s in
  let iz := Z.of_nat i in
  let '(f, g) :=
    if (i <? 16)%nat then (Z.lor (Z.land b c) (Z.land (not32 b) d), iz)
    else if (i <? 32)%nat then (Z.lor (Z.land d b) (Z.land (not32 d) c), (5 * iz + 1) mod 16)
    else if (i <? 48)%nat then (Z.lxor b (Z.lxor c d), (3 * iz + 5) mod 16)
    else (Z.lxor c (Z.lor b (not32 d)), (7 * iz) mod 16) in
  let f := add32 (add32 (add32 f a) (nth i K 0)) (nth (Z.to_nat g) m 0) in
  mk_st d (add32 b (rotl32 f (nth i shifts 0))) b c.

Definition compress (s : st) (block : bytes) : st :=
  let m := words block in
  let '(mk_st a b c d) := fold_left (round m) (seq 0 64) s in
  mk_st (add32 (sa s) a) (add32 (sb s) b) (add32 (sc s) c) (add32 (sd s) d).

Fixpoint le_bytes (n : nat) (x : Z) : bytes :=
  match n with
  | O => []
  | S n' => Z_to_byte x :: le_bytes n' (Z.shiftr x 8)
  end.

Definition pad (msg : bytes) : bytes :=
  let len := Z.of_nat (length msg) in
  let k := (55 - len) mod 64 in
  msg ++ [x80] ++ repeat x00 (Z.to_nat k) ++ le_bytes 8 (8 * len).

Fixpoint blocks (fuel : nat) (l : bytes) : list bytes :=
  match fuel with
  | O => []
  | S fuel' =>
      match l with
      | [] => []
      | _ => firstn 64 l :: blocks fuel' (skipn 64 l)
      end
  end.

(** [hashlib.md5(data).digest()] *)
Definition digest (msg : bytes) : bytes :=
  let p := pad msg in
  let '(mk_st a b c d) := fold_left compress (blocks (length p) p) init in
  le_bytes 4 a ++ le_bytes 4 b ++ le_bytes 4 c ++ le_bytes 4 d.

Definition hex_char (n : Z) : ascii :=
  if n <? 10 then ascii_of_nat (48 + Z.to_nat n)
  else ascii_of_nat (87 + Z.to_nat n).

(** [binascii.hexlify] as a Python [str] *)
Fixpoint hexlify (l : bytes) : string :=
  match l with
  | [] => EmptyString
  | b :: r =>
      String (hex_char (Z.shiftr (byte_to_Z b) 4))
        (String (hex_char (Z.land (byte_to_Z b) 15)) (hexlify r))
  end.

Definition hex_val (c : ascii) : Z :=
  let n := Z.of_nat (nat_of_ascii c) in
  if (48 <=? n) && (n <=? 57) then n - 48
  else if (97 <=? n) && (n <=? 102) then n - 87
  else n - 55.

(** [binascii.unhexlify] on the even-length lower-case strings it is used on *)
Fixpoint unhexlify (s : string) : bytes :=
  match s with
  | String c1 (String c2 r) =>
      Z_to_byte (16 * hex_val c1 + hex_val c2) :: unhexlify r
  | _ => []
  end.

(** [hashlib.md5(data).hexdigest()] *)
Definition hexdigest (msg : bytes) : string := hexlify (digest msg).

End Md5.

(** ** Python helpers used by the adapter *)
Module Py.

Definition bytes := list byte.

(** [bytes[:n]] and [bytes[n:]] with the length given as an [N] *)
Fixpoint take_N (n : N) (l : bytes) : bytes :=
  match l with
  | [] => []
  | x :: r => if (n =? 0)%N then [] else x :: take_N (N.pred n) r
  end.

Fixpoint drop_N (n : N) (l : bytes) : bytes :=
  match l with
  | [] => []
  | x :: r => if (n =? 0)%N then l else drop_N (N.pred n) r
  end.

(** Python truthiness of a [str] *)
Definition truthy_str (s : string) : bool :=
  match s with EmptyString => false | _ => true end.

(** [needle in haystack] on [str] *)
Fixpoint str_in (needle hay : string) : bool :=
  String.prefix needle hay ||
  match hay with EmptyString => false | String _ r => str_in needle r end.

Definition starts_with_slash (s : string) : bool :=
  match s with String "/"%char _ => true | _ => false end.

Definition ends_with_slash (s : string) : bool :=
  match String.get (String.length s - 1) s with
  | Some "/"%char => truthy_str s
  | _ => false
  end.

(** [posixpath.join(a, *p)] *)
Definition path_join (a : string) (p : list string) : string :=
  fold_left (fun path b =>
    if starts_with_slash b then b
    else if negb (truthy_str path) || ends_with_slash path then (path ++ b)%string
    else (path ++ "/" ++ b)%string) p a.

(** [str(n)] for a non-negative [int] *)
Definition str_int (n : nat) : string := pretty (N.of_nat n).

End Py.

(** ** The world the adapter acts on *)
Module Storage.
Import Py.

(** A libcloud object of the container *)
Record CloudObject := mk_object {
  obj_name : string;
  obj_size : Z;
  obj_hash : string;
  obj_data : bytes;
  obj_extra_url : option string  (* [obj.extra["url"]] when present *)
}.

(** A seekable binary stream: its bytes, its position, whether it is a
    [tempfile.SpooledTemporaryFile] (werkzeug's default upload stream; a
    [cgi.FieldStorage] file or a [BytesIO] is not), and whether its
    underlying file has been detached, after which every method of the
    stream raises [ValueError] *)
Record PyStream := mk_stream {
  st_data : bytes;
  st_pos : nat;
  st_spooled : bool;
  st_detached : bool
}.

Definition remaining (s : PyStream) : bytes := skipn (st_pos s) (st_data s).

(** The calls the adapter makes to libraries outside this repository *)
Inductive Call :=
| GetContainer (name : string)
| GetObject (name : string)
| UploadObjectViaStream (name : string) (data : bytes)
| DeleteObject (name : string)
| CreateBlobFromStream (container blob : string) (data : bytes)
    (content_type : option string)
| HashlibMd5 (data : bytes).

Record World := mk_world {
  w_container : gmap string CloudObject;  (* the configured container *)
  w_local : gmap string Z;                (* files of the working directory and their sizes *)
  w_file : PyStream;                      (* the uploaded file, [self.file_upload] *)
  w_db : gmap string string;              (* resource id -> [model.Resource.url] *)
  w_now : Z;                              (* [datetime.utcnow()], in seconds *)
  w_log : list Call;
  w_container_cached : bool               (* [self._container is not None] *)
}.

Inductive Exc :=
| ObjectDoesNotExistError
| ContainerDoesNotExistError
| NotImplementedError
| AttributeError
| TypeError
| ValueError
| InvalidCredsError
| KeyError
| LibcloudError.  (* any other error of libcloud or of the network *)

(** Python code that may raise, threading the world *)
Definition M (A : Type) : Type := World -> (Exc + A) * World.

Global Instance M_ret : MRet M := fun A x w => (inr x, w).
Global Instance M_bind : MBind M := fun A B f m w =>
  match m w with
  | (inl e, w') => (inl e, w')
  | (inr x, w') => f x w'
  end.

Definition raise {A} (e : Exc) : M A := fun w => (inl e, w).

(** [try: m except ...: h(e)] *)
Definition catch {A} (m : M A) (h : Exc -> M A) : M A := fun w =>
  match m w with
  | (inl e, w') => h e w'
  | r => r
  end.

Definition gets {A} (f : World -> A) : M A := fun w => (inr (f w), w).
Definition modify (f : World -> World) : M unit := fun w => (inr tt, f w).

Definition log_call (c : Call) : M unit :=
  modify (fun w => mk_world (w_container w) (w_local w) (w_file w) (w_db w)
                            (w_now w) (w_log w ++ [c]) (w_container_cached w)).

Definition set_file (s : PyStream) : M unit :=
  modify (fun w => mk_world (w_container w) (w_local w) s (w_db w)
                            (w_now w) (w_log w) (w_container_cached w)).

Definition set_container (c : gmap string CloudObject) : M unit :=
  modify (fun w => mk_world c (w_local w) (w_file w) (w_db w)
                            (w_now w) (w_log w) (w_container_cached w)).

Definition set_cached (b : bool) : M unit :=
  modify (fun w => mk_world (w_container w) (w_local w) (w_file w) (w_db w)
                            (w_now w) (w_log w) b).

(** *** Stream methods of [self.file_upload] *)

(** the stream, or [ValueError] once its underlying file is detached *)
Definition live_file : M PyStream :=
  s ← gets w_file;
  if st_detached s then raise ValueError else mret s.

Definition moved (s : PyStream) (pos : nat) : PyStream :=
  mk_stream (st_data s) pos (st_spooled s) (st_detached s).

(** [f.read(n)] *)
Definition stream_read (n : N) : M bytes :=
  s ← live_file;
  let block := take_N n (remaining s) in
  set_file (moved s (st_pos s + length block));;
  mret block.

(** [f.read()] *)
Definition stream_read_all : M bytes :=
  s ← live_file;
  let rest := remaining s in
  set_file (moved s (st_pos s + length rest));;
  mret rest.

(** [f.seek(0, os.SEEK_SET)] and [f.seek(0, os.SEEK_END)] *)
Definition seek_set0 : M unit :=
  s ← live_file; set_file (moved s 0).
Definition seek_end0 : M unit :=
  s ← live_file; set_file (moved s (length (st_data s))).

(** [f.tell()] *)
Definition tell : M nat := s ← live_file; mret (st_pos s).

(** *** [os.path] on the working directory *)
Definition os_path_isfile (p : string) : M bool :=
  w ← gets w_local; mret (match w !! p with Some _ => true | None => false end).
Definition os_path_getsize (p : string) : M Z :=
  w ← gets w_local; mret (default 0 (w !! p)).

(** *** [hashlib.md5(data).hexdigest()] *)
Definition hashlib_md5_hexdigest (data : bytes) : M string :=
  log_call (HashlibMd5 data);; mret (Md5.hexdigest data).

(** *** [_md5sum] (storage.py:46) *)
Definition AWS_UPLOAD_PART_SIZE : N := 5 * 1024 * 1024.

(** The [while block:] loop; [fuel] bounds the iterations, each of which
    but the last consumes a non-empty block of the stream. *)
Fixpoint md5sum_loop (fuel : nat) (block_count : nat) (md5string : bytes)
  : M (nat * bytes) :=
  match fuel with
  | O => mret (block_count, md5string)
  | S fuel' =>
      block ← stream_read AWS_UPLOAD_PART_SIZE;
      match block with
      | [] => mret (block_count, md5string)
      | _ =>
          h ← hashlib_md5_hexdigest block;
          md5sum_loop fuel' (S block_count) (md5string ++ Md5.unhexlify h)
      end
  end.

Definition _md5sum : M string :=
  s ← gets w_file;
  '(block_count, md5string) ← md5sum_loop (S (length (remaining s))) 0 [];
  seek_set0;;
  h ← hashlib_md5_hexdigest md5string;
  mret (h ++ "-" ++ str_int block_count)%string.

(** ** [config.py]: the values read from the CKAN configuration, and the
    packages installed alongside *)
Record Config := mk_config {
  driver_options : gmap string string;  (* [config.options()] *)
  driver_name : string;                 (* [config.driver()] *)
  container_name : string;              (* [config.container()] *)
  secure_ttl : Z;                       (* [config.secure_ttl()] *)
  use_secure_urls : bool;               (* [config.use_secure()] *)
  leave_files : bool;                   (* [config.leave_files()] *)
  guess_mimetype : bool;                (* [config.guess_mimetype()] *)
  azure_storage_installed : bool;       (* [from azure import storage] succeeds *)
  boto3_installed : bool;               (* [import boto3] succeeds *)
  connection_host : string              (* [self.driver.connection.host] *)
}.

(** *** [CloudStorage] properties (storage.py:134-177) *)
Definition can_use_advanced_azure (cfg : Config) : bool :=
  if String.eqb (driver_name cfg) "AZURE_BLOBS" then azure_storage_installed cfg
  else false.

Definition can_use_advanced_aws (cfg : Config) : bool :=
  if str_in "S3" (driver_name cfg) then
    if negb (bool_decide (is_Some (driver_options cfg !! "host"))) then false
    else boto3_installed cfg
  else false.

(** How [driver.get_container(container_name=...)] fails *)
Inductive ContainerError :=
| ContainerMissing        (* no container of that name *)
| ContainerBadCreds       (* the provider refuses the credentials *)
| ContainerOtherError.    (* any other libcloud or network error *)

Definition container_exc (e : ContainerError) : Exc :=
  match e with
  | ContainerMissing => ContainerDoesNotExistError
  | ContainerBadCreds => InvalidCredsError
  | ContainerOtherError => LibcloudError
  end.

(** *** The resource dict *)
Inductive Upload :=
| FieldStorage (filename : string)       (* [cgi.FieldStorage] *)
| FlaskFileStorage (filename : string)   (* [werkzeug FileStorage] *)
| OtherUpload.                           (* anything else, e.g. a [str] *)

Inductive PyVal :=
| VNone
| VStr (s : string)
| VBool (b : bool)
| VUpload (u : Upload)
| VTime (t : Z).

Definition truthy (v : PyVal) : bool :=
  match v with
  | VNone => false
  | VStr s => truthy_str s
  | VBool b => b
  | VUpload _ => true
  | VTime _ => true
  end.

Abbreviation Resource := (gmap string PyVal).

(** [resource.pop(k, None)] *)
Definition pop (k : string) (r : Resource) : PyVal * Resource :=
  (default VNone (r !! k), delete k r).

(** [isinstance(u, ALLOWED_UPLOAD_TYPES) and u.filename]: the filename *)
Definition allowed_upload_filename (v : PyVal) : option string :=
  match v with
  | VUpload (FieldStorage f) | VUpload (FlaskFileStorage f) =>
      if truthy_str f then Some f else None
  | _ => None
  end.

(** The attributes of a [ResourceCloudStorage] after [__init__] *)
Record RCS := mk_rcs {
  rcs_filename : option string;      (* [self.filename] *)
  rcs_old_filename : option string;  (* [self.old_filename] *)
  rcs_clear : PyVal                  (* [self._clear] *)
}.

Definition opt_truthy (o : option string) : bool :=
  match o with Some s => truthy_str s | None => false end.

(** The URL values [get_url_by_path] returns *)
Inductive Url :=
| AzureSasUrl (container blob : string) (expiry : Z)   (* make_blob_url with a READ SAS *)
| S3PresignedUrl (bucket key : string) (expires_in : Z) (region : option string)
| CdnUrl (u : string)                                  (* driver.get_object_cdn_url *)
| JoinedUrl (base rel : string)                        (* urljoin(base, rel) *)
| ExtraUrl (u : string).                               (* obj.extra["url"] *)

(** What libcloud's [upload_object_via_stream] iterates over *)
Inductive Iter :=
| FileIter                                 (* [iter(file_upload)] *)
| RawFileIter (data : bytes) (pos : nat).  (* [file_upload._file.detach()] *)

Section Adapter.

Variable cfg : Config.
(** [ckan.lib.munge.munge_filename] *)
Variable munge_filename : string -> string.
(** the hash the provider records for an object uploaded with these bytes *)
Variable provider_hash : bytes -> string.
(** [mimetypes.guess_type(f)[0]] *)
Variable guess_type : string -> option string.
(** [self.driver.get_object_cdn_url(obj)]; [None] when the driver raises
    [NotImplementedError] *)
Variable get_object_cdn_url : CloudObject -> option string.
(** the error [get_driver(getattr(Provider, self.driver_name))], called with
    [self.driver_options] as keyword arguments, raises for this
    configuration, if any: [AttributeError] for an unknown
    driver name, [TypeError] when an option the driver requires (such as
    [key]) is missing, [ValueError] for a malformed option, ... *)
Variable driver_error : option Exc.
(** the error [self.driver.get_container(container_name=...)] raises, if any *)
Variable get_container_error : option ContainerError.

(** *** [CloudStorage.container] (storage.py:76): fetched on first access,
    then cached in [self._container] *)
Definition container : M unit :=
  cached ← gets w_container_cached;
  if (cached : bool) then mret tt
  else
    log_call (GetContainer (container_name cfg));;
    match get_container_error with
    | Some e => raise (container_exc e)
    | None => set_cached true
    end.

(** *** Methods of the libcloud container *)
Definition get_object (name : string) : M CloudObject :=
  log_call (GetObject name);;
  c ← gets w_container;
  match c !! name with
  | Some o => mret o
  | None => raise ObjectDoesNotExistError
  end.

Definition store (name : string) (data : bytes) : M unit :=
  c ← gets w_container;
  set_container (<[name := mk_object name (Z.of_nat (length data))
                             (provider_hash data) data None]> c).

(** the bytes libcloud draws from the iterator: the rest of the stream *)
Definition iter_bytes (it : Iter) : M bytes :=
  match it with
  | FileIter => stream_read_all
  | RawFileIter d pos => mret (skipn pos d)
  end.

(** [container.upload_object_via_stream(iterator=it, object_name=name)] *)
Definition upload_object_via_stream (it : Iter) (name : string) : M unit :=
  data ← iter_bytes it;
  log_call (UploadObjectViaStream name data);;
  store name data.

Definition delete_object (o : CloudObject) : M unit :=
  log_call (DeleteObject (obj_name o));;
  c ← gets w_container;
  set_container (delete (obj_name o) c).

(** [BlockBlobService.create_blob_from_stream] into [container_name]: the
    SDK reads the stream to its end and writes the blob *)
Definition create_blob_from_stream (blob : string) (ct : option string) : M unit :=
  data ← stream_read_all;
  log_call (CreateBlobFromStream (container_name cfg) blob data ct);;
  store blob data.

(** *** [CloudStorage.__init__] (storage.py:66) *)
Definition cloud_storage_init : M unit :=
  match driver_error with
  | Some e => raise e
  | None => set_cached false  (* [self._container = None] *)
  end.

(** *** [ResourceCloudStorage.__init__] (storage.py:189) *)
Definition rcs_init (resource : Resource) : M (RCS * Resource) :=
  cloud_storage_init;;
  let '(upload_field_storage, resource) := pop "upload" resource in
  let '(clear, resource) := pop "clear_upload" resource in
  let '(multipart_name, resource) := pop "multipart_name" resource in
  match allowed_upload_filename upload_field_storage with
  | Some f =>
      let filename := munge_filename f in
      now ← gets w_now;
      mret (mk_rcs (Some filename) None clear,
            <["last_modified" := VTime now]>
              (<["url_type" := VStr "upload"]> (<["url" := VStr filename]> resource)))
  | None =>
      if truthy multipart_name && can_use_advanced_aws cfg then
        match multipart_name with
        | VStr m =>
            now ← gets w_now;
            mret (mk_rcs None None clear,
                  <["last_modified" := VTime now]>
                    (<["url_type" := VStr "upload"]>
                       (<["url" := VStr (munge_filename m)]> resource)))
        | _ => raise TypeError
        end
      else if truthy clear && truthy (default VNone (resource !! "id")) then
        db ← gets w_db;
        let old := match resource !! "id" with
                   | Some (VStr i) => db !! i
                   | _ => None
                   end in
        match old with
        | Some url => mret (mk_rcs None (Some url) clear,
                            <["url_type" := VStr ""]> resource)
        | None => raise AttributeError  (* [None.url] *)
        end
      else mret (mk_rcs None None clear, resource)
  end.

(** *** [ResourceCloudStorage.path_from_filename] (storage.py:233) *)
Definition path_from_filename (rid filename : string) : string :=
  path_join "resources" [rid; munge_filename filename].

(** [self.driver_options["key"]] and [["secret"]], raising [KeyError] *)
Definition credentials : M (string * string) :=
  match driver_options cfg !! "key", driver_options cfg !! "secret" with
  | Some k, Some sec => mret (k, sec)
  | _, _ => raise KeyError
  end.

(** *** [ResourceCloudStorage.upload] (storage.py:242) *)

(** Where the [check if already uploaded] block leaves control: at one of
    its [return]s, or falling through to the upload *)
Inductive Check := Skip | Proceed.

Definition dedup_check (object_name filename : string) : M Check :=
  catch (
    container;;
    cloud_object ← get_object object_name;
    isf ← os_path_isfile filename;
    file_size ← (if (isf : bool) then os_path_getsize filename
                 else seek_end0;; n ← tell; seek_set0;; mret (Z.of_nat n));
    if bool_decide (file_size = obj_size cloud_object) then
      data ← stream_read_all;
      hash_file ← hashlib_md5_hexdigest data;
      seek_set0;;
      (* basic hash *)
      if String.eqb hash_file (obj_hash cloud_object) then mret Skip
      else
        (* multipart hash *)
        multi_hash_file ← _md5sum;
        if String.eqb multi_hash_file (obj_hash cloud_object) then mret Skip
        else mret Proceed
    else mret Proceed)
  (fun e => match e with
            | ObjectDoesNotExistError => mret Proceed
            | e => raise e
            end).

(** The iterator handed to libcloud (storage.py:333-340): a
    [SpooledTemporaryFile] is rolled over to disk and its underlying file
    detached, which leaves the [SpooledTemporaryFile] itself unusable *)
Definition file_upload_iter : M Iter :=
  s ← gets w_file;
  if st_spooled s then
    (* [file_upload.rollover()]; [file_upload._file.detach()] *)
    if st_detached s then raise ValueError
    else set_file (mk_stream (st_data s) (st_pos s) true true);;
         mret (RawFileIter (st_data s) (st_pos s))
  else mret FileIter.

Definition upload_file (id filename : string) : M unit :=
  if can_use_advanced_azure cfg then
    credentials;;
    let ct := if guess_mimetype cfg then guess_type filename else None in
    create_blob_from_stream (path_from_filename id filename) ct
  else
    catch (
      let object_name := path_from_filename id filename in
      chk ← dedup_check object_name filename;
      match chk with
      | Skip => mret tt
      | Proceed =>
          it ← file_upload_iter;
          container;;
          upload_object_via_stream it object_name
      end)
    (* [except (ValueError, types.InvalidCredsError) as err: raise err];
       any other error propagates as well *)
    (fun e => raise e).

Definition clear_old (r : RCS) (id : string) : M unit :=
  if truthy (rcs_clear r) && opt_truthy (rcs_old_filename r)
     && negb (leave_files cfg) then
    (* [self.container.delete_object(self.container.get_object(...))] *)
    catch (container;;
           o ← (container;;
                get_object (path_from_filename id (default "" (rcs_old_filename r))));
           delete_object o)
      (fun e => match e with
                | ObjectDoesNotExistError => mret tt
                | e => raise e
                end)
  else mret tt.

Definition upload (r : RCS) (id : string) : M unit :=
  match rcs_filename r with
  | Some filename => if truthy_str filename then upload_file id filename
                     else clear_old r id
  | None => clear_old r id
  end.

(** *** [ResourceCloudStorage.get_url_by_path] (storage.py:371) *)
Definition get_url_by_path (path : string) : M (option Url) :=
  if can_use_advanced_azure cfg && use_secure_urls cfg then
    credentials;;
    now ← gets w_now;
    mret (Some (AzureSasUrl (container_name cfg) path (now + secure_ttl cfg)))
  else if can_use_advanced_aws cfg && use_secure_urls cfg then
    credentials;;
    mret (Some (S3PresignedUrl (container_name cfg) path (secure_ttl cfg)
                  (driver_options cfg !! "region")))
  else
    obj ← catch (container;; o ← get_object path; mret (Some o))
                (fun e => match e with
                          | ObjectDoesNotExistError => mret None
                          | e => raise e
                          end);
    match obj with
    | None => mret None
    | Some o =>
        match get_object_cdn_url o with
        | Some u => mret (Some (CdnUrl u))
        | None =>
            if str_in "S3" (driver_name cfg) then
              mret (Some (JoinedUrl ("https://" ++ connection_host cfg)
                                    (container_name cfg ++ "/" ++ path)))
            else match obj_extra_url o with
                 | Some u => mret (Some (ExtraUrl u))
                 | None => raise NotImplementedError
                 end
        end
    end.

Definition get_url_from_filename (rid filename : string) : M (option Url) :=
  get_url_by_path (path_from_filename rid filename).

End Adapter.

End Storage.

(** ** Statements of the specification, written from its words *)
Module SpecDefs.
Import Py Storage.

(** The consecutive [AWS_UPLOAD_PART_SIZE]-byte blocks of [l] *)
Fixpoint part_blocks (fuel : nat) (l : bytes) : list bytes :=
  match fuel with
  | O => []
  | S fuel' =>
      match l with
      | [] => []
      | _ => take_N AWS_UPLOAD_PART_SIZE l
               :: part_blocks fuel' (drop_N AWS_UPLOAD_PART_SIZE l)
      end
  end.

Definition blocks_of (l : bytes) : list bytes := part_blocks (S (length l)) l.

(** The multipart digest as the specification describes it *)
Definition multipart_digest (data : bytes) : string :=
  (Md5.hexdigest (concat (map Md5.digest (blocks_of data)))
   ++ "-" ++ str_int (length (blocks_of data)))%string.

(** The size [upload] compares with the stored object's: the size of a file
    of the working directory named like the upload when there is one
    ([os.path.isfile]), the size of the uploaded stream otherwise *)
Definition compared_size (w : World) (filename : string) : Z :=
  match w_local w !! filename with
  | Some n => n
  | None => Z.of_nat (length (st_data (w_file w)))
  end.

(** The bytes [hashlib.md5(self.file_upload.read())] hashes *)
Definition hashed_bytes (w : World) (filename : string) : bytes :=
  match w_local w !! filename with
  | Some _ => remaining (w_file w)
  | None => st_data (w_file w)
  end.

(** Where the dedup block of [upload] leaves control, read off the world *)
Definition dedup_decision (w : World) (name filename : string) : Check :=
  match w_container w !! name with
  | None => Proceed
  | Some o =>
      if bool_decide (compared_size w filename = obj_size o) then
        if String.eqb (Md5.hexdigest (hashed_bytes w filename)) (obj_hash o) then Skip
        else if String.eqb (multipart_digest (st_data (w_file w))) (obj_hash o) then Skip
        else Proceed
      else Proceed
  end.

Definition is_upload_call (c : Call) : bool :=
  match c with UploadObjectViaStream _ _ | CreateBlobFromStream _ _ _ _ => true | _ => false end.

Definition is_delete_call (c : Call) : bool :=
  match c with DeleteObject _ => true | _ => false end.

(** The object a provider holds after an upload of [data] under [name] *)
Definition stored (provider_hash : bytes -> string) (name : string) (data : bytes)
  : CloudObject :=
  mk_object name (Z.of_nat (length data)) (provider_hash data) data None.

(** C1 as the claim words it: an object at [name] whose size is the uploaded
    file's and whose hash is its MD5 or multipart digest *)
Definition claimed_dedup_match (w : World) (name : string) : Prop :=
  exists o, w_container w !! name = Some o
    /\ obj_size o = Z.of_nat (length (st_data (w_file w)))
    /\ (obj_hash o = Md5.hexdigest (st_data (w_file w))
        \/ obj_hash o = multipart_digest (st_data (w_file w))).

(** The same with the size the code compares, [compared_size] *)
Definition code_dedup_match (w : World) (name filename : string) : Prop :=
  exists o, w_container w !! name = Some o
    /\ obj_size o = compared_size w filename
    /\ (obj_hash o = Md5.hexdigest (st_data (w_file w))
        \/ obj_hash o = multipart_digest (st_data (w_file w))).

(** C6: the conditions under which the claim allows [upload] to delete *)
Definition delete_allowed (cfg : Config) (r : RCS) : bool :=
  negb (opt_truthy (rcs_filename r)) && truthy (rcs_clear r)
  && opt_truthy (rcs_old_filename r) && negb (leave_files cfg).

(** The part of the world that hashing leaves alone *)
Definition env (w : World) :=
  (w_container w, w_local w, w_db w, w_now w).

Definition is_hash_call (c : Call) : bool :=
  match c with HashlibMd5 _ => true | _ => false end.

(** The resource dict without the keys [__init__] pops *)
Definition popped (resource : gmap string PyVal) : gmap string PyVal :=
  delete "multipart_name" (delete "clear_upload" (delete "upload" resource)).

(** Every object of the container is stored under its own name *)
Definition names_consistent (c : gmap string CloudObject) : Prop :=
  map_Forall (fun k o => obj_name o = k) c.

(** The hash calls [_md5sum] makes on a stream holding [data] from offset 0:
    one per block, then one for the concatenated digests *)
Definition md5sum_calls (data : bytes) : list Call :=
  map HashlibMd5 (blocks_of data)
  ++ [HashlibMd5 (concat (map Md5.digest (blocks_of data)))].

(** The error of the first access to [self.container], if it fails *)
Definition container_fails (gce : option ContainerError) (w : World) : option Exc :=
  if w_container_cached w then None else option_map container_exc gce.

(** The [get_container] call the first access to [self.container] makes *)
Definition container_calls (cfg : Config) (w : World) : list Call :=
  if w_container_cached w then [] else [GetContainer (container_name cfg)].

(** [w] with the calls [l] appended to its log *)
Definition logged (w : World) (l : list Call) : World :=
  mk_world (w_container w) (w_local w) (w_file w) (w_db w) (w_now w)
    (w_log w ++ l) (w_container_cached w).

(** The world after a successful access to [self.container] *)
Definition load_container (cfg : Config) (w : World) : World :=
  if w_container_cached w then w
  else mk_world (w_container w) (w_local w) (w_file w) (w_db w) (w_now w)
         (w_log w ++ [GetContainer (container_name cfg)]) true.

(** The hash calls of the dedup block of [upload], read off the world *)
Definition dedup_hashes (w : World) (name filename : string) : list Call :=
  match w_container w !! name with
  | Some o =>
      if bool_decide (compared_size w filename = obj_size o) then
        HashlibMd5 (hashed_bytes w filename)
        :: (if String.eqb (Md5.hexdigest (hashed_bytes w filename)) (obj_hash o) then []
            else md5sum_calls (st_data (w_file w)))
      else []
  | None => []
  end.

(** [w] with [self._container] set to [None] *)
Definition uncached (w : World) : World :=
  mk_world (w_container w) (w_local w) (w_file w) (w_db w) (w_now w) (w_log w) false.

End SpecDefs.

(** ** Concrete inputs *)
Module Examples.
Import Py Storage SpecDefs.

(** An S3 deployment without secure URLs *)
Definition cfg_s3 : Config :=
  mk_config {[ "key" := "AKIA"; "secret" := "s3cr3t" ]}
    "S3" "bucket" 3600 false false false false false "s3.amazonaws.com".

(** [munge_filename] on names it leaves unchanged, such as "f.txt" *)
Definition munge_plain (s : string) : string := s.

(** A provider that records the MD5 hex digest of a single-part upload *)
Definition etag_md5 : bytes -> string := Md5.hexdigest.

Definition no_mime (_ : string) : option string := None.

Definition ab : bytes := [Byte.x61; Byte.x62].

Definition obj_ab : CloudObject :=
  mk_object "resources/rid/f.txt" 2 (Md5.hexdigest ab) ab None.

Definition rcs_f : RCS := mk_rcs (Some "f.txt") None VNone.

(** werkzeug's upload stream, a [SpooledTemporaryFile], holding "ab" *)
Definition spooled_ab : PyStream := mk_stream ab 0 true false.

(** Nothing stored yet, the container not fetched yet *)
Definition world_fresh : World := mk_world ∅ ∅ spooled_ab ∅ 0 [] false.

(** "ab" already stored, and a 5-byte "f.txt" in the working directory *)
Definition world_shadowed : World :=
  mk_world {[ "resources/rid/f.txt" := obj_ab ]} {[ "f.txt" := 5 ]}
    spooled_ab ∅ 0 [] false.

(** "ab" stored with its [_md5sum] digest as hash, as a multipart upload
    would leave it *)
Definition obj_ab_multipart : CloudObject :=
  mk_object "resources/rid/f.txt" 2 (multipart_digest ab) ab None.

Definition world_multipart : World :=
  mk_world {[ "resources/rid/f.txt" := obj_ab_multipart ]} ∅ spooled_ab ∅ 0 [] false.

(** A resource dict as CKAN passes it with a werkzeug upload *)
Definition resource_f : gmap string PyVal :=
  {[ "upload" := VUpload (FlaskFileStorage "f.txt") ]}.

(** A driver, such as Google Storage, that is neither S3 nor advanced Azure *)
Definition cfg_gcs : Config :=
  mk_config {[ "key" := "GOOG"; "secret" := "s3cr3t" ]} "GOOGLE_STORAGE" "bucket" 3600 true false false false false
    "storage.googleapis.com".

(** A driver whose [get_object_cdn_url] raises [NotImplementedError] *)
Definition no_cdn (_ : CloudObject) : option string := None.

(** An S3 deployment with secure URLs, a host option and boto3 *)
Definition cfg_s3_signed : Config :=
  mk_config {[ "host" := "s3.amazonaws.com"; "key" := "AKIA"; "secret" := "s3cr3t" ]}
    "S3" "bucket" 3600 true false false false true "s3.amazonaws.com".

(** An Azure deployment with azure-storage installed *)
Definition cfg_azure : Config :=
  mk_config {[ "key" := "account"; "secret" := "s3cr3t" ]}
    "AZURE_BLOBS" "container" 3600 true false true true false "account.blob.core.windows.net".

Definition mime_text (_ : string) : option string := Some "text/plain".

(** A resource whose file was uploaded to S3 in parts by the browser *)
Definition resource_multipart : gmap string PyVal :=
  {[ "multipart_name" := VStr "big.csv" ]}.

(** A resource whose upload is cleared *)
Definition resource_clear : gmap string PyVal :=
  {[ "clear_upload" := VStr "true"; "id" := VStr "rid"; "url" := VStr "http://example.com/f" ]}.

(** A resource that links to a URL *)
Definition resource_link : gmap string PyVal :=
  {[ "url" := VStr "http://example.com/f"; "upload" := VStr "" ]}.

(** "ab" stored for resource "rid" as "f.txt" *)
Definition world_stored : World :=
  mk_world {[ "resources/rid/f.txt" := obj_ab ]} ∅ (mk_stream [] 0 false false)
    {[ "rid" := "f.txt" ]} 0 [] false.

(** A stream already read up to offset 1 *)
Definition world_offset : World :=
  mk_world ∅ ∅ (mk_stream ab 1 false false) ∅ 0 [] false.

(** A [cgi.FieldStorage] upload: a plain temporary file holding "ab" *)
Definition world_plain : World :=
  mk_world ∅ ∅ (mk_stream ab 0 false false) ∅ 0 [] false.

Definition rcs_clear_f : RCS := mk_rcs None (Some "f.txt") (VStr "true").

End Examples.

(** ** Proofs *)
Module Facts.
Import Py Storage SpecDefs.

Ltac unfold_m :=
  unfold set_file, set_container, set_cached, log_call, mbind, M_bind, mret, M_ret,
    gets, modify, raise, catch in *.

Lemma take_N_length_skipn (n : N) (l : bytes) :
  skipn (length (take_N n l)) l = drop_N n l.
Proof.
  revert n; induction l as [|x r IH]; intros n; [reflexivity|].
  simpl. destruct (N.eqb_spec n 0); [reflexivity|]. simpl. apply IH.
Qed.

Lemma take_N_drop_N (n : N) (l : bytes) : take_N n l ++ drop_N n l = l.
Proof.
  revert n; induction l as [|x r IH]; intros n; [reflexivity|].
  simpl. destruct (N.eqb_spec n 0); [reflexivity|]. simpl. f_equal. apply IH.
Qed.

Lemma take_N_nil (n : N) (l : bytes) :
  n <> 0%N -> take_N n l = [] -> l = [].
Proof.
  intros Hn. destruct l as [|x r]; [reflexivity|]. simpl.
  destruct (N.eqb_spec n 0); [contradiction|discriminate].
Qed.

Lemma unhexlify_hexlify (l : bytes) : Md5.unhexlify (Md5.hexlify l) = l.
Proof.
  induction l as [|b r IH]; [reflexivity|].
  simpl. rewrite IH. f_equal. destruct b; vm_compute; reflexivity.
Qed.

Lemma md5sum_loop_spec (fuel : nat) :
  forall count acc w, st_detached (w_file w) = false ->
    let bs := part_blocks fuel (remaining (w_file w)) in
    fst (md5sum_loop fuel count acc w)
      = inr (count + length bs, acc ++ concat (map Md5.digest bs))%nat
    /\ exists pos, snd (md5sum_loop fuel count acc w)
         = mk_world (w_container w) (w_local w) (moved (w_file w) pos) (w_db w) (w_now w)
                    (w_log w ++ map HashlibMd5 bs) (w_container_cached w).
Proof.
  induction fuel as [|fuel IH]; intros count acc w Hdet bs; subst bs.
  - simpl. rewrite Nat.add_0_r, !app_nil_r. split; [reflexivity|].
    exists (st_pos (w_file w)). destruct w as [c loc [d pos sp det] db now lg cc]. reflexivity.
  - destruct w as [c loc [d pos sp det] db now lg cc]. cbn in Hdet. subst det.
    simpl md5sum_loop.
    unfold stream_read, live_file, hashlib_md5_hexdigest, moved. unfold_m. cbn -[take_N].
    destruct (take_N AWS_UPLOAD_PART_SIZE (skipn pos d)) as [|b bl] eqn:Hb.
    + apply take_N_nil in Hb; [|unfold AWS_UPLOAD_PART_SIZE; lia].
      unfold remaining; cbn [w_file st_data st_pos]. rewrite Hb. cbn.
      rewrite Nat.add_0_r, !app_nil_r. split; [reflexivity|]. eexists; reflexivity.
    + cbn [w_container w_local w_file w_db w_now w_log w_container_cached st_data st_pos
           st_spooled st_detached].
      match goal with
      | |- context [md5sum_loop fuel (S count) ?a ?w'] =>
          destruct (IH (S count) a w' eq_refl) as [H1 [p H2]]
      end.
      rewrite H1, H2. clear H1 H2. unfold remaining; cbn [w_file st_data st_pos].
      assert (E : skipn (pos + length (b :: bl)) d
                  = drop_N AWS_UPLOAD_PART_SIZE (skipn pos d)).
      { rewrite Nat.add_comm, <- skipn_skipn, <- Hb. apply take_N_length_skipn. }
      rewrite E. clear E.
      destruct (skipn pos d) as [|x r] eqn:Hs; [discriminate|].
      change (part_blocks (S fuel) (x :: r))
        with (take_N AWS_UPLOAD_PART_SIZE (x :: r)
                :: part_blocks fuel (drop_N AWS_UPLOAD_PART_SIZE (x :: r))).
      cbn [length map concat].
      unfold Md5.hexdigest. rewrite unhexlify_hexlify.
      split.
      * f_equal. f_equal; [lia|]. rewrite app_assoc. reflexivity.
      * exists p. cbn. rewrite <- app_assoc. reflexivity.
Qed.

Lemma drop_N_length_lt (n : N) (l : bytes) :
  n <> 0%N -> l <> [] -> (length (drop_N n l) < length l)%nat.
Proof.
  intros Hn Hl. destruct l as [|x r]; [congruence|]. simpl.
  destruct (N.eqb_spec n 0); [contradiction|].
  pose proof (take_N_drop_N (N.pred n) r) as E.
  apply (f_equal (@length byte)) in E. rewrite length_app in E. lia.
Qed.

Lemma take_N_length_le (n : N) (l : bytes) : (length (take_N n l) <= N.to_nat n)%nat.
Proof.
  revert n; induction l as [|x r IH]; intros n; simpl; [lia|].
  destruct (N.eqb_spec n 0); simpl; [lia|].
  specialize (IH (N.pred n)). rewrite N2Nat.inj_pred in IH. lia.
Qed.

Lemma part_blocks_concat (fuel : nat) (l : bytes) :
  (length l < fuel)%nat -> concat (part_blocks fuel l) = l.
Proof.
  revert l; induction fuel as [|fuel IH]; intros l Hl; [lia|].
  destruct l as [|x r]; [reflexivity|].
  cbn [part_blocks concat]. rewrite IH; [apply take_N_drop_N|].
  pose proof (drop_N_length_lt AWS_UPLOAD_PART_SIZE (x :: r)) as H.
  unfold AWS_UPLOAD_PART_SIZE in *. simpl length in *.
  assert (5 * 1024 * 1024 <> 0)%N as Hn by lia.
  specialize (H Hn ltac:(discriminate)). lia.
Qed.

Lemma part_blocks_shape (fuel : nat) (l : bytes) :
  Forall (fun b => b <> [] /\ (length b <= N.to_nat AWS_UPLOAD_PART_SIZE)%nat)
    (part_blocks fuel l).
Proof.
  revert l; induction fuel as [|fuel IH]; intros l; [constructor|].
  destruct l as [|x r]; [constructor|]. cbn [part_blocks].
  constructor; [|apply IH]. split; [|apply take_N_length_le].
  intros H. apply take_N_nil in H; [discriminate|]. unfold AWS_UPLOAD_PART_SIZE; lia.
Qed.

Lemma str_int_0 : str_int 0 = "0"%string.
Proof. vm_compute. reflexivity. Qed.

Lemma md5sum_run (w : World) :
  st_detached (w_file w) = false ->
  fst (_md5sum w) = inr (multipart_digest (remaining (w_file w)))
  /\ snd (_md5sum w)
     = mk_world (w_container w) (w_local w) (moved (w_file w) 0) (w_db w) (w_now w)
         (w_log w ++ md5sum_calls (remaining (w_file w))) (w_container_cached w).
Proof.
  intros Hdet.
  destruct (md5sum_loop_spec (S (length (remaining (w_file w)))) 0 [] w Hdet) as [H1 [p H2]].
  unfold _md5sum, seek_set0, live_file, hashlib_md5_hexdigest. unfold_m. cbn -[md5sum_loop].
  destruct (md5sum_loop (S (length (remaining (w_file w)))) 0 [] w)
    as [[e|[n acc]] w'] eqn:E; cbn in H1; [discriminate|].
  injection H1 as -> ->. cbn in H2. subst w'. cbn. rewrite Hdet. cbn.
  split; [reflexivity|]. unfold md5sum_calls, blocks_of. rewrite <- app_assoc. reflexivity.
Qed.

(** *** The lazily fetched container *)
Section ContainerFacts.
Variable cfg : Config.
Variable gce : option ContainerError.

Lemma load_container_eq (w : World) :
  load_container cfg w
  = mk_world (w_container w) (w_local w) (w_file w) (w_db w) (w_now w)
      (w_log w ++ container_calls cfg w) true.
Proof.
  destruct w as [c loc f db now lg []]; unfold load_container, container_calls; cbn;
    rewrite ?app_nil_r; reflexivity.
Qed.

Lemma container_run (w : World) :
  container cfg gce w
  = match container_fails gce w with
    | Some e => (inl e, logged w (container_calls cfg w))
    | None => (inr tt, load_container cfg w)
    end.
Proof.
  unfold container, container_fails, container_calls, load_container, logged. unfold_m.
  destruct w as [c loc f db now lg []]; cbn; [reflexivity|].
  destruct gce; reflexivity.
Qed.

Lemma container_seq {A} (m : M A) (w : World) :
  (container cfg gce;; m) w
  = match container_fails gce w with
    | Some e => (inl e, logged w (container_calls cfg w))
    | None => m (load_container cfg w)
    end.
Proof.
  unfold mbind at 1, M_bind at 1. rewrite container_run.
  destruct (container_fails gce w); reflexivity.
Qed.

Lemma container_fails_load (w : World) : container_fails gce (load_container cfg w) = None.
Proof. rewrite load_container_eq. reflexivity. Qed.

Lemma load_container_idem (w : World) :
  load_container cfg (load_container cfg w) = load_container cfg w.
Proof. unfold load_container at 1. rewrite load_container_eq. reflexivity. Qed.

Lemma load_container_cached (w : World) :
  w_container_cached w = true -> load_container cfg w = w.
Proof. unfold load_container. intros ->. reflexivity. Qed.

Lemma dedup_check_load (name filename : string) (w : World) :
  container_fails gce w = None ->
  dedup_check cfg gce name filename w
  = dedup_check cfg gce name filename (load_container cfg w).
Proof.
  intros H. unfold dedup_check, catch.
  rewrite !container_seq, H, container_fails_load, load_container_idem. reflexivity.
Qed.

Lemma dedup_check_run (w : World) (name filename : string) :
  w_container_cached w = true -> st_detached (w_file w) = false ->
  fst (dedup_check cfg gce name filename w) = inr (dedup_decision w name filename)
  /\ exists p, snd (dedup_check cfg gce name filename w)
       = mk_world (w_container w) (w_local w) (moved (w_file w) p) (w_db w) (w_now w)
           (w_log w ++ GetObject name :: dedup_hashes w name filename) true
     /\ (st_pos (w_file w) = 0%nat -> p = 0%nat)
     /\ (w_local w !! filename = None -> is_Some (w_container w !! name) -> p = 0%nat)
     /\ (w_container w !! name = None -> p = st_pos (w_file w)).
Proof.
  intros Hc Hd. destruct w as [c loc [d pos sp det] db now lg cc]. cbn in Hc, Hd. subst cc det.
  unfold dedup_check, catch. rewrite container_seq.
  cbn [container_fails load_container w_container_cached].
  unfold dedup_decision, dedup_hashes, compared_size, hashed_bytes, get_object,
    os_path_isfile, os_path_getsize, stream_read_all, seek_end0, tell, seek_set0,
    hashlib_md5_hexdigest, live_file, moved.
  unfold_m. cbn [w_container w_local w_file w_db w_now w_log w_container_cached
    st_data st_pos st_spooled st_detached].
  destruct (c !! name) as [o|] eqn:Ho.
  2:{ cbn. split; [reflexivity|]. exists pos. split; [reflexivity|].
      split; [auto|]. split; [intros _ [x Hx]; discriminate|auto]. }
  cbn [w_container w_local w_file w_db w_now w_log w_container_cached
    st_data st_pos st_spooled st_detached].
  destruct (loc !! filename) as [n|] eqn:Hl;
    cbn [w_container w_local w_file w_db w_now w_log w_container_cached
      st_data st_pos st_spooled st_detached]; rewrite ?Hl; cbn [default Datatypes.id].
  - destruct (bool_decide (n = obj_size o)) eqn:Hs;
      cbn -[_md5sum Md5.hexdigest multipart_digest md5sum_calls remaining].
    2:{ split; [reflexivity|]. exists pos. split; [reflexivity|]. split; [auto|].
        split; [intros; discriminate|]. intros Hn; rewrite ?Ho in Hn; discriminate. }
    destruct (Md5.hexdigest (remaining (mk_stream d pos sp false)) =? obj_hash o)%string eqn:Hh;
      cbn -[_md5sum Md5.hexdigest multipart_digest md5sum_calls remaining].
    + split; [reflexivity|]. exists 0%nat. rewrite <- app_assoc.
      split; [reflexivity|]. split; [auto|]. split; [auto|]. intros Hn; rewrite ?Ho in Hn; discriminate.
    + match goal with |- context [_md5sum ?w1] =>
        destruct (md5sum_run w1 eq_refl) as [R1 R2]; destruct (_md5sum w1) as [r w1'] end.
      cbn -[multipart_digest md5sum_calls] in R1, R2. rewrite ?drop_0 in R1, R2.
      subst r w1'. cbn -[Md5.hexdigest multipart_digest md5sum_calls remaining].
      destruct (multipart_digest d =? obj_hash o)%string; cbn;
        (split; [reflexivity|]); exists 0%nat; rewrite <- !app_assoc;
        (split; [reflexivity|]); (split; [auto|]); (split; [auto|]); intros Hn; rewrite ?Ho in Hn; discriminate.
  - destruct (bool_decide (Z.of_nat (length d) = obj_size o)) eqn:Hs;
      cbn -[_md5sum Md5.hexdigest multipart_digest md5sum_calls]; rewrite ?drop_0.
    2:{ split; [reflexivity|]. exists 0%nat. split; [reflexivity|]. split; [auto|]. split; [auto|]. intros Hn; rewrite ?Ho in Hn; discriminate. }
    destruct (Md5.hexdigest d =? obj_hash o)%string eqn:Hh;
      cbn -[_md5sum Md5.hexdigest multipart_digest md5sum_calls].
    + split; [reflexivity|]. exists 0%nat. rewrite <- app_assoc.
      split; [reflexivity|]. split; [auto|]. split; [auto|]. intros Hn; rewrite ?Ho in Hn; discriminate.
    + match goal with |- context [_md5sum ?w1] =>
        destruct (md5sum_run w1 eq_refl) as [R1 R2]; destruct (_md5sum w1) as [r w1'] end.
      cbn -[multipart_digest md5sum_calls] in R1, R2. rewrite ?drop_0 in R1, R2.
      subst r w1'. cbn -[Md5.hexdigest multipart_digest md5sum_calls].
      destruct (multipart_digest d =? obj_hash o)%string; cbn;
        (split; [reflexivity|]); exists 0%nat; rewrite <- !app_assoc;
        (split; [reflexivity|]); (split; [auto|]); (split; [auto|]); intros Hn; rewrite ?Ho in Hn; discriminate.
Qed.
End ContainerFacts.

Lemma catch_reraise {A} (m : M A) (w : World) : catch m (fun e => raise e) w = m w.
Proof. unfold catch, raise. destruct (m w) as [[e|a] w']; reflexivity. Qed.

Lemma dedup_decision_skip (w : World) (name filename : string) :
  st_pos (w_file w) = 0%nat ->
  dedup_decision w name filename = Skip <-> code_dedup_match w name filename.
Proof.
  intros Hp. unfold dedup_decision, code_dedup_match, hashed_bytes.
  assert (Hr : remaining (w_file w) = st_data (w_file w))
    by (unfold remaining; rewrite Hp; reflexivity).
  assert (Hh : (match w_local w !! filename with
                | Some _ => remaining (w_file w) | None => st_data (w_file w) end)
               = st_data (w_file w)) by (destruct (w_local w !! filename); auto).
  rewrite Hh. clear Hh Hr.
  destruct (w_container w !! name) as [o|] eqn:Ho.
  2:{ split; [discriminate|]. intros (o & H & _). discriminate. }
  destruct (bool_decide_reflect (compared_size w filename = obj_size o)) as [Hs|Hs].
  - destruct (String.eqb_spec (Md5.hexdigest (st_data (w_file w))) (obj_hash o)) as [E1|E1];
    [|destruct (String.eqb_spec (multipart_digest (st_data (w_file w))) (obj_hash o)) as [E2|E2]].
    + split; [intros _|reflexivity]. exists o. split; [reflexivity|]. split; [auto|]. auto.
    + split; [intros _|reflexivity]. exists o. split; [reflexivity|]. split; [auto|]. auto.
    + split; [discriminate|]. intros (o' & H & _ & [H1|H1]);
        injection H as <-; congruence.
  - split; [discriminate|]. intros (o' & H & H1 & _). injection H as <-. congruence.
Qed.

Lemma container_fails_not_missing_object (gce : option ContainerError) (w : World) (e : Exc) :
  container_fails gce w = Some e -> e <> ObjectDoesNotExistError.
Proof.
  unfold container_fails. destruct (w_container_cached w); [discriminate|].
  intros H. destruct gce as [[]|]; cbn in H; inversion H; discriminate.
Qed.

Section UploadFacts.
Variable cfg : Config.
Variable munge_filename : string -> string.
Variable provider_hash : bytes -> string.
Variable guess_type : string -> option string.
Variable gce : option ContainerError.

Lemma dedup_decision_load (w : World) (name filename : string) :
  dedup_decision (load_container cfg w) name filename = dedup_decision w name filename.
Proof. rewrite load_container_eq. reflexivity. Qed.

Lemma dedup_hashes_load (w : World) (name filename : string) :
  dedup_hashes (load_container cfg w) name filename = dedup_hashes w name filename.
Proof. rewrite load_container_eq. reflexivity. Qed.

Lemma upload_file_libcloud (id filename : string) (w : World) :
  can_use_advanced_azure cfg = false -> container_fails gce w = None ->
  st_detached (w_file w) = false ->
  let name := path_from_filename munge_filename id filename in
  let pre := w_log w ++ container_calls cfg w ++ GetObject name :: dedup_hashes w name filename in
  let w' := snd (upload_file cfg munge_filename provider_hash guess_type gce id filename w) in
  fst (upload_file cfg munge_filename provider_hash guess_type gce id filename w) = inr tt
  /\ w_local w' = w_local w /\ w_db w' = w_db w /\ w_now w' = w_now w
  /\ w_container_cached w' = true
  /\ st_data (w_file w') = st_data (w_file w)
  /\ st_spooled (w_file w') = st_spooled (w_file w)
  /\ exists up,
       (st_pos (w_file w) = 0%nat -> up = st_data (w_file w))
       /\ (w_container w !! name = None -> up = remaining (w_file w))
       /\ (w_local w !! filename = None -> is_Some (w_container w !! name) ->
           up = st_data (w_file w))
       /\ match dedup_decision w name filename with
          | Skip => w_container w' = w_container w /\ w_log w' = pre
                    /\ st_detached (w_file w') = false
          | Proceed =>
              w_container w' = <[name := stored provider_hash name up]> (w_container w)
              /\ w_log w' = pre ++ [UploadObjectViaStream name up]
              /\ st_detached (w_file w') = st_spooled (w_file w)
          end.
Proof.
  intros Haz Hc Hd name pre w'. subst w'.
  unfold upload_file. rewrite Haz, catch_reraise. unfold mbind, M_bind.
  fold name. rewrite (dedup_check_load cfg gce name filename w Hc).
  assert (Hcl : w_container_cached (load_container cfg w) = true)
    by (rewrite load_container_eq; reflexivity).
  assert (Hdl : st_detached (w_file (load_container cfg w)) = false)
    by (rewrite load_container_eq; exact Hd).
  destruct (dedup_check_run cfg gce (load_container cfg w) name filename Hcl Hdl)
    as [R1 [p [R2 [R3 [R4 R5]]]]].
  rewrite dedup_decision_load, dedup_hashes_load in *.
  destruct (dedup_check cfg gce name filename (load_container cfg w)) as [r w1] eqn:E.
  cbn [fst snd] in R1, R2. subst r w1. clear E.
  rewrite load_container_eq in R3, R4, R5 |- *. cbn [w_container w_local w_file w_db w_now w_log
    w_container_cached] in R3, R4, R5 |- *.
  destruct w as [c loc [d pos sp det] db now lg cc]. cbn in Hd. subst det.
  cbn [w_container w_local w_file w_db w_now w_log w_container_cached
    st_data st_pos st_spooled st_detached] in *.
  assert (Hpre : (lg ++ container_calls cfg
                    (mk_world c loc (mk_stream d pos sp false) db now lg cc))
                 ++ GetObject name :: dedup_hashes
                    (mk_world c loc (mk_stream d pos sp false) db now lg cc) name filename
                 = pre) by (subst pre; rewrite <- app_assoc; reflexivity).
  clearbody pre. rewrite Hpre. clear Hpre.
  assert (U : (pos = 0%nat -> skipn p d = d)
              /\ (c !! name = None -> skipn p d = skipn pos d)
              /\ (loc !! filename = None -> is_Some (c !! name) -> skipn p d = d)).
  { split; [intros H; rewrite (R3 H); reflexivity|].
    split; [intros H; rewrite (R5 H); reflexivity|].
    intros H1 H2. rewrite (R4 H1 H2). reflexivity. }
  destruct U as [U1 [U2 U3]].
  match goal with |- context [dedup_decision ?W name filename] =>
    destruct (dedup_decision W name filename) eqn:Hdec end.
  - cbn. repeat (split; [reflexivity|]). exists (skipn p d). split_and!; auto.
  - unfold file_upload_iter, container, upload_object_via_stream, iter_bytes, store,
      stream_read_all, live_file, moved. unfold_m. cbn.
    destruct sp; cbn.
    + repeat (split; [reflexivity|]). exists (skipn p d).
      split; [auto|]. split; [auto|]. split; [auto|].
      split; [reflexivity|]. split; reflexivity.
    + repeat (split; [reflexivity|]). exists (skipn p d).
      split; [auto|]. split; [auto|]. split; [auto|].
      split; [reflexivity|]. split; reflexivity.
Qed.

Lemma upload_file_container_fail (id filename : string) (w : World) (e : Exc) :
  can_use_advanced_azure cfg = false -> container_fails gce w = Some e ->
  upload_file cfg munge_filename provider_hash guess_type gce id filename w
  = (inl e, logged w (container_calls cfg w)).
Proof.
  intros Haz Hc. unfold upload_file. rewrite Haz, catch_reraise.
  unfold mbind at 1, M_bind at 1. unfold dedup_check, catch at 1. rewrite container_seq, Hc.
  destruct e; try reflexivity. exfalso. exact (container_fails_not_missing_object gce w _ Hc eq_refl).
Qed.

Lemma upload_file_detached (id filename : string) (w : World) :
  can_use_advanced_azure cfg = false -> container_fails gce w = None ->
  st_detached (w_file w) = true ->
  upload_file cfg munge_filename provider_hash guess_type gce id filename w
  = (inl ValueError,
     logged (load_container cfg w) [GetObject (path_from_filename munge_filename id filename)]).
Proof.
  intros Haz Hc Hd. unfold upload_file. rewrite Haz, catch_reraise. unfold mbind, M_bind.
  set (name := path_from_filename munge_filename id filename). clearbody name.
  rewrite (dedup_check_load cfg gce name filename w Hc).
  unfold logged. rewrite !load_container_eq.
  destruct w as [c loc [d pos sp det] db now lg cc]. cbn in Hd. subst det.
  cbn [w_container w_local w_file w_db w_now w_log w_container_cached].
  set (lg1 := lg ++ _). clearbody lg1.
  unfold dedup_check, catch. rewrite container_seq.
  cbn [container_fails load_container w_container_cached].
  unfold get_object, os_path_isfile, os_path_getsize, stream_read_all, seek_end0, tell,
    seek_set0, hashlib_md5_hexdigest, live_file, moved, file_upload_iter, container,
    upload_object_via_stream, iter_bytes.
  unfold_m. cbn [w_container w_local w_file w_db w_now w_log w_container_cached
    st_data st_pos st_spooled st_detached].
  destruct (c !! name) as [o|]; cbn.
  - destruct (loc !! filename) as [n|] eqn:Hl; cbn; rewrite ?Hl; cbn;
      [destruct (bool_decide (n = obj_size o))|];
      cbn; try reflexivity; destruct sp; reflexivity.
  - destruct sp; reflexivity.
Qed.

Lemma upload_file_azure (id filename : string) (w : World) :
  can_use_advanced_azure cfg = true ->
  let name := path_from_filename munge_filename id filename in
  let s := w_file w in
  let data := remaining s in
  let ct := if guess_mimetype cfg then guess_type filename else None in
  upload_file cfg munge_filename provider_hash guess_type gce id filename w
  = match driver_options cfg !! "key", driver_options cfg !! "secret" with
    | Some _, Some _ =>
        if st_detached s then (inl ValueError, w)
        else (inr tt, mk_world (<[name := stored provider_hash name data]> (w_container w))
                        (w_local w) (moved s (st_pos s + length data)) (w_db w) (w_now w)
                        (w_log w ++ [CreateBlobFromStream (container_name cfg) name data ct])
                        (w_container_cached w))
    | _, _ => (inl KeyError, w)
    end.
Proof.
  intros Haz name s data ct. unfold upload_file. rewrite Haz. fold name ct. clearbody name ct.
  unfold credentials, create_blob_from_stream, store, stream_read_all, live_file. unfold_m.
  destruct (driver_options cfg !! "key"), (driver_options cfg !! "secret"); try reflexivity.
  cbn. subst s data. destruct (st_detached (w_file w)); reflexivity.
Qed.

Lemma clear_old_run (r : RCS) (id : string) (w : World) :
  let name := path_from_filename munge_filename id (default "" (rcs_old_filename r)) in
  clear_old cfg munge_filename gce r id w
  = if truthy (rcs_clear r) && opt_truthy (rcs_old_filename r) && negb (leave_files cfg) then
      match container_fails gce w with
      | Some e => (inl e, logged w (container_calls cfg w))
      | None =>
          match w_container w !! name with
          | Some o =>
              (inr tt, mk_world (delete (obj_name o) (w_container w)) (w_local w) (w_file w)
                         (w_db w) (w_now w)
                         (w_log w ++ container_calls cfg w
                                  ++ [GetObject name; DeleteObject (obj_name o)]) true)
          | None => (inr tt, logged (load_container cfg w) [GetObject name])
          end
      end
    else (inr tt, w).
Proof.
  intros name. unfold clear_old. fold name. clearbody name.
  destruct (_ && _ && _); [|reflexivity].
  unfold catch. rewrite container_seq.
  destruct (container_fails gce w) as [e|] eqn:Hc.
  - destruct e; try reflexivity. exfalso.
    exact (container_fails_not_missing_object gce w _ Hc eq_refl).
  - unfold mbind at 1, M_bind at 1. rewrite container_seq, container_fails_load,
      load_container_idem.
    unfold logged. rewrite !load_container_eq.
    unfold get_object, delete_object. unfold_m. cbn.
    destruct (w_container w !! name); cbn; [|reflexivity].
    rewrite <- !app_assoc. reflexivity.
Qed.

Lemma upload_via_file (r : RCS) (id f : string) :
  rcs_filename r = Some f -> truthy_str f = true ->
  upload cfg munge_filename provider_hash guess_type gce r id
  = upload_file cfg munge_filename provider_hash guess_type gce id f.
Proof. intros Hf Ht. unfold upload. rewrite Hf, Ht. reflexivity. Qed.

Lemma upload_via_clear (r : RCS) (id : string) :
  opt_truthy (rcs_filename r) = false ->
  upload cfg munge_filename provider_hash guess_type gce r id
  = clear_old cfg munge_filename gce r id.
Proof.
  intros Hf. unfold upload. destruct (rcs_filename r); [|reflexivity].
  cbn in Hf. rewrite Hf. reflexivity.
Qed.

End UploadFacts.

Section UrlFacts.
Variable cfg : Config.
Variable get_object_cdn_url : CloudObject -> option string.
Variable gce : option ContainerError.

Lemma get_url_by_path_lookup (path : string) (w : World) :
  (can_use_advanced_azure cfg && use_secure_urls cfg) = false ->
  (can_use_advanced_aws cfg && use_secure_urls cfg) = false ->
  get_url_by_path cfg get_object_cdn_url gce path w
  = match container_fails gce w with
    | Some e => (inl e, logged w (container_calls cfg w))
    | None =>
        (match w_container w !! path with
         | None => inr None
         | Some o =>
             match get_object_cdn_url o with
             | Some u => inr (Some (CdnUrl u))
             | None =>
                 if str_in "S3" (driver_name cfg)
                 then inr (Some (JoinedUrl ("https://" ++ connection_host cfg)
                                           (container_name cfg ++ "/" ++ path)))
                 else match obj_extra_url o with
                      | Some u => inr (Some (ExtraUrl u))
                      | None => inl NotImplementedError
                      end
             end
         end, logged (load_container cfg w) [GetObject path])
    end.
Proof.
  intros H1 H2. unfold get_url_by_path. rewrite H1, H2.
  unfold mbind at 1, M_bind at 1, catch. rewrite container_seq.
  destruct (container_fails gce w) as [e|] eqn:Hc.
  - destruct e; try reflexivity. exfalso.
    exact (container_fails_not_missing_object gce w _ Hc eq_refl).
  - unfold logged. rewrite !load_container_eq.
    unfold get_object. unfold_m. cbn.
    destruct (w_container w !! path) as [o|]; cbn; [|reflexivity].
    destruct (get_object_cdn_url o); [reflexivity|].
    destruct (str_in "S3" (driver_name cfg)); [reflexivity|].
    destruct (obj_extra_url o); reflexivity.
Qed.

End UrlFacts.

Lemma container_calls_forall (P : Call -> Prop) (cfg : Config) (w : World) :
  P (GetContainer (container_name cfg)) -> Forall P (container_calls cfg w).
Proof. intros H. unfold container_calls. destruct (w_container_cached w); repeat constructor; auto. Qed.

Lemma md5sum_calls_hash (data : bytes) :
  Forall (fun c => is_hash_call c = true) (md5sum_calls data).
Proof.
  unfold md5sum_calls. apply Forall_app. split; [|repeat constructor].
  apply List.Forall_map, Forall_true. reflexivity.
Qed.

Lemma dedup_hashes_hash (w : World) (name filename : string) :
  Forall (fun c => is_hash_call c = true) (dedup_hashes w name filename).
Proof.
  unfold dedup_hashes. destruct (w_container w !! name); [|constructor].
  destruct (bool_decide _); [|constructor]. constructor; [reflexivity|].
  destruct (String.eqb _ _); [constructor|apply md5sum_calls_hash].
Qed.

Lemma rcs_init_driver_error (cfg : Config) (munge_filename : string -> string)
    (e : Exc) (resource : gmap string PyVal) (w : World) :
  rcs_init cfg munge_filename (Some e) resource w = (inl e, w).
Proof. reflexivity. Qed.

(** *** Strings and paths *)
Lemma truthy_str_app_r (s t : string) :
  truthy_str t = true -> truthy_str (s ++ t) = true.
Proof. destruct t; [discriminate|]. destruct s; reflexivity. Qed.

Lemma get_last_app (s t : string) :
  truthy_str t = true ->
  String.get (String.length (s ++ t) - 1) (s ++ t) = String.get (String.length t - 1) t.
Proof.
  intros Ht. induction s as [|a s IH]; [reflexivity|].
  change (String a s ++ t)%string with (String a (s ++ t)).
  change (String.length (String a (s ++ t))) with (S (String.length (s ++ t))).
  assert (Hn : String.length (s ++ t) <> 0%nat).
  { destruct s as [|b s0]; [destruct t; [discriminate|]|]; cbn; discriminate. }
  destruct (String.length (s ++ t)) as [|m]; [contradiction|].
  cbn [Nat.sub] in *. rewrite Nat.sub_0_r in IH. rewrite <- IH. reflexivity.
Qed.

Lemma ends_with_slash_app (s t : string) :
  truthy_str t = true -> ends_with_slash (s ++ t) = ends_with_slash t.
Proof.
  intros Ht. unfold ends_with_slash. rewrite get_last_app by exact Ht.
  rewrite (truthy_str_app_r s t Ht), Ht. reflexivity.
Qed.

Ltac map_simp :=
  cbn [rcs_clear]; repeat first [ rewrite lookup_insert_eq
               | rewrite lookup_insert_ne by discriminate
               | rewrite lookup_delete_eq
               | rewrite lookup_delete_ne by discriminate ].

Lemma take_N_short (n : N) (l : bytes) :
  (length l <= N.to_nat n)%nat -> take_N n l = l /\ drop_N n l = [].
Proof.
  revert n; induction l as [|x r IH]; intros n Hl; [split; reflexivity|].
  cbn [length] in Hl. cbn [take_N drop_N].
  destruct (N.eqb_spec n 0) as [->|Hn]; [cbn in Hl; lia|].
  destruct (IH (N.pred n)) as [H1 H2]; [rewrite N2Nat.inj_pred; lia|].
  rewrite H1, H2. split; reflexivity.
Qed.

Section UploadFacts2.
Variable cfg : Config.
Variable munge_filename : string -> string.
Variable provider_hash : bytes -> string.
Variable guess_type : string -> option string.
Variable gce : option ContainerError.

Lemma logged_container (w : World) (l : list Call) :
  w_container (logged w l) = w_container w /\ w_local (logged w l) = w_local w
  /\ w_db (logged w l) = w_db w.
Proof. split_and!; reflexivity. Qed.



Lemma upload_deletes (r : RCS) (id : string) (w : World) :
  let w' := snd (upload cfg munge_filename provider_hash guess_type gce r id w) in
  exists l, w_log w' = w_log w ++ l
    /\ (Exists (fun c => is_delete_call c = true) l -> delete_allowed cfg r = true)
    /\ (delete_allowed cfg r = false ->
        forall k, is_Some (w_container w !! k) -> is_Some (w_container w' !! k)).
Proof.
  intros w'. subst w'.
  assert (Hins : forall (c : gmap string CloudObject) n o k,
            is_Some (c !! k) -> is_Some (<[n := o]> c !! k)).
  { intros c n o k [x Hx]. destruct (decide (n = k)) as [->|Hne].
    - rewrite lookup_insert_eq. eauto.
    - rewrite lookup_insert_ne by exact Hne. eauto. }
  assert (Hnodel : forall l, Forall (fun c => is_delete_call c = false) l ->
                   ~ Exists (fun c => is_delete_call c = true) l).
  { intros l Hl Hex. apply Exists_exists in Hex as [x [Hx Hd]].
    rewrite Forall_forall in Hl. specialize (Hl x Hx). congruence. }
  assert (Hcc : Forall (fun c => is_delete_call c = false) (container_calls cfg w))
    by (apply container_calls_forall; reflexivity).
  assert (Hdh : forall n f, Forall (fun c => is_delete_call c = false) (dedup_hashes w n f)).
  { intros n f. eapply Forall_impl; [apply dedup_hashes_hash|]. intros [] H; cbn in *; congruence. }
  assert (Hkeep : forall l w1, w_log w1 = w_log w ++ l ->
            Forall (fun c => is_delete_call c = false) l ->
            (forall k, is_Some (w_container w !! k) -> is_Some (w_container w1 !! k)) ->
            exists l0, w_log w1 = w_log w ++ l0
              /\ (Exists (fun c => is_delete_call c = true) l0 -> delete_allowed cfg r = true)
              /\ (delete_allowed cfg r = false ->
                  forall k, is_Some (w_container w !! k) -> is_Some (w_container w1 !! k))).
  { intros l w1 H1 H2 H3. exists l. split; [exact H1|].
    split; [intros H; exfalso; exact (Hnodel l H2 H)|auto]. }
  destruct (opt_truthy (rcs_filename r)) eqn:Hf.
  - destruct (rcs_filename r) as [f|] eqn:Ef; [|discriminate]. cbn in Hf.
    rewrite (upload_via_file cfg munge_filename provider_hash guess_type gce r id f Ef Hf).
    destruct (can_use_advanced_azure cfg) eqn:Haz.
    + rewrite (upload_file_azure cfg munge_filename provider_hash guess_type gce id f w Haz).
      destruct (driver_options cfg !! "key"), (driver_options cfg !! "secret");
        [destruct (st_detached (w_file w))| | |]; cbn.
      all: first [ apply (Hkeep [] w); [rewrite app_nil_r; reflexivity|constructor|auto]
              | eexists; split; [reflexivity|]; split;
                [intros H; exfalso; eapply Hnodel; [|exact H]; repeat constructor
                |intros _ k Hk; apply Hins, Hk] ].
    + destruct (container_fails gce w) as [e'|] eqn:Hc.
      * rewrite (upload_file_container_fail cfg munge_filename provider_hash guess_type gce
                   id f w e' Haz Hc).
        apply (Hkeep (container_calls cfg w)); [reflexivity|exact Hcc|auto].
      * destruct (st_detached (w_file w)) eqn:Hd.
        -- rewrite (upload_file_detached cfg munge_filename provider_hash guess_type gce
                      id f w Haz Hc Hd).
           apply (Hkeep (container_calls cfg w ++ [GetObject
                    (path_from_filename munge_filename id f)])).
           ++ unfold logged. rewrite load_container_eq. cbn. rewrite <- app_assoc. reflexivity.
           ++ apply Forall_app. split; [exact Hcc|repeat constructor].
           ++ rewrite load_container_eq. auto.
        -- destruct (upload_file_libcloud cfg munge_filename provider_hash guess_type gce
                       id f w Haz Hc Hd) as (_ & _ & _ & _ & _ & _ & _ & up & _ & _ & _ & U).
           destruct (dedup_decision _ _ _); destruct U as (U1 & U2 & _).
           ++ eapply Hkeep; [rewrite U2; reflexivity| |rewrite U1; auto].
              apply Forall_app. split; [exact Hcc|]. constructor; [reflexivity|apply Hdh].
           ++ eapply Hkeep; [rewrite U2, <- app_assoc; reflexivity| |].
              ** apply Forall_app. split; [|repeat constructor].
                 apply Forall_app. split; [exact Hcc|]. constructor; [reflexivity|apply Hdh].
              ** rewrite U1. intros k Hk. apply Hins, Hk.
  - rewrite (upload_via_clear cfg munge_filename provider_hash guess_type gce r id Hf).
    rewrite (clear_old_run cfg munge_filename gce r id w).
    destruct (truthy (rcs_clear r) && opt_truthy (rcs_old_filename r) && negb (leave_files cfg))
      eqn:Hcond.
    + destruct (container_fails gce w) as [e'|] eqn:Hc.
      * apply (Hkeep (container_calls cfg w)); [reflexivity|exact Hcc|auto].
      * destruct (w_container w !! _) as [o|].
        -- exists (container_calls cfg w ++ [GetObject (path_from_filename munge_filename id
                     (default "" (rcs_old_filename r))); DeleteObject (obj_name o)]).
           split; [reflexivity|]. split.
           ++ intros _. unfold delete_allowed. rewrite Hf. cbn [negb andb]. exact Hcond.
           ++ unfold delete_allowed. rewrite Hf. cbn [negb andb]. rewrite Hcond. discriminate.
        -- apply (Hkeep (container_calls cfg w ++ [GetObject (path_from_filename munge_filename
                    id (default "" (rcs_old_filename r)))])).
           ++ unfold logged. rewrite load_container_eq. cbn. rewrite <- app_assoc. reflexivity.
           ++ apply Forall_app. split; [exact Hcc|repeat constructor].
           ++ unfold logged. rewrite load_container_eq. auto.
    + apply (Hkeep []); [rewrite app_nil_r; reflexivity|constructor|auto].
Qed.

End UploadFacts2.

End Facts.

(** ** The claims *)
Module Claims.
Import Py Storage SpecDefs Examples Facts.

(** C7: on a readable stream (one whose underlying file has not been
    detached), [_md5sum] reads the stream from its position in consecutive
    [5*1024*1024]-byte blocks, each non-empty and together the rest of the
    stream, and returns the MD5 hex digest of the concatenated raw MD5 digests
    of those blocks, then "-" and the number of blocks; it leaves the stream
    at offset 0. On an empty stream the result is the MD5 hex digest of the
    empty byte string followed by "-0". *)
Theorem md5sum_multipart_digest (w : World) :
  st_detached (w_file w) = false ->
  let data := remaining (w_file w) in
  fst (_md5sum w) = inr (multipart_digest data)
  /\ st_pos (w_file (snd (_md5sum w))) = 0%nat
  /\ st_data (w_file (snd (_md5sum w))) = st_data (w_file w)
  /\ concat (blocks_of data) = data
  /\ Forall (fun b => b <> [] /\ (length b <= N.to_nat AWS_UPLOAD_PART_SIZE)%nat)
       (blocks_of data)
  /\ multipart_digest [] = (Md5.hexdigest [] ++ "-0")%string.
Proof.
  intros Hd data. subst data.
  destruct (md5sum_run w Hd) as [H1 H2].
  split; [exact H1|]. rewrite H2.
  split; [reflexivity|split; [reflexivity|split; [|split]]].
  - apply part_blocks_concat. lia.
  - apply part_blocks_shape.
  - unfold multipart_digest, blocks_of. cbn. rewrite str_int_0. reflexivity.
Qed.

Section Adapter.
Variable cfg : Config.
Variable munge_filename : string -> string.
Variable provider_hash : bytes -> string.
Variable guess_type : string -> option string.
Variable get_object_cdn_url : CloudObject -> option string.
Variable driver_error : option Exc.
Variable get_container_error : option ContainerError.

Local Abbreviation upload :=
  (upload cfg munge_filename provider_hash guess_type get_container_error).
Local Abbreviation path_from_filename := (path_from_filename munge_filename).
Local Abbreviation get_url_by_path :=
  (get_url_by_path cfg get_object_cdn_url get_container_error).

(** C1 (amended): on the libcloud path ([can_use_advanced_azure] false), for
    an upload whose stream is readable and at offset 0 and a container that
    [self.container] fetches (or has cached) without error, [upload] returns
    normally. It leaves the container as it is, uploading nothing, exactly
    when an object exists at [path_from_filename id filename] whose size is
    [compared_size] (the size of a working-directory file named like the
    upload when there is one, the uploaded stream's size otherwise) and whose
    hash is the MD5 hex digest or the [_md5sum] digest of the uploaded bytes;
    otherwise it uploads those bytes with [upload_object_via_stream] under
    that path, as its last call. *)
Theorem upload_dedup_skip_or_upload (r : RCS) (id filename : string) (w : World) :
  rcs_filename r = Some filename -> truthy_str filename = true ->
  can_use_advanced_azure cfg = false -> st_pos (w_file w) = 0%nat ->
  st_detached (w_file w) = false -> container_fails get_container_error w = None ->
  let name := path_from_filename id filename in
  let data := st_data (w_file w) in
  let w' := snd (upload r id w) in
  fst (upload r id w) = inr tt
  /\ (code_dedup_match w name filename ->
      w_container w' = w_container w
      /\ exists l, w_log w' = w_log w ++ l
                  /\ Forall (fun c => is_upload_call c = false) l)
  /\ (~ code_dedup_match w name filename ->
      w_container w' = <[name := stored provider_hash name data]> (w_container w)
      /\ exists l, w_log w' = w_log w ++ l ++ [UploadObjectViaStream name data]
                  /\ Forall (fun c => is_upload_call c = false) l).
Proof.
  intros Hf Ht Haz Hp Hd Hc name data w'. subst w'.
  rewrite (upload_via_file cfg munge_filename provider_hash guess_type get_container_error
             r id filename Hf Ht).
  destruct (upload_file_libcloud cfg munge_filename provider_hash guess_type
              get_container_error id filename w Haz Hc Hd)
    as (U1 & _ & _ & _ & _ & _ & _ & up & Up & _ & _ & U4).
  fold name in U4. specialize (Up Hp). subst up.
  pose proof (dedup_decision_skip w name filename Hp) as Hdk.
  assert (Hl : Forall (fun c => is_upload_call c = false)
                 (container_calls cfg w ++ GetObject name :: dedup_hashes w name filename)).
  { apply Forall_app. split; [apply container_calls_forall; reflexivity|].
    constructor; [reflexivity|]. eapply Forall_impl; [apply dedup_hashes_hash|].
    intros [] H; cbn in *; congruence. }
  split; [exact U1|].
  destruct (dedup_decision w name filename) eqn:E; destruct U4 as (U4 & U5 & _).
  - split.
    + intros _. split; [exact U4|]. eexists. split; [rewrite U5; reflexivity|exact Hl].
    + intros Hn. exfalso. apply Hn, Hdk. reflexivity.
  - split.
    + intros Hm. apply Hdk in Hm. discriminate.
    + intros _. split; [exact U4|]. eexists.
      split; [rewrite U5, <- app_assoc; reflexivity|exact Hl].
Qed.

(** C4 (amended): on the libcloud path, for a readable stream at offset 0
    and a container fetched without error, [upload] computes hashes of the
    uploaded bytes itself, and exactly these: when an object exists at the
    upload's path with the compared size, first [hashlib.md5] of the
    uploaded bytes, then, when that digest is not the stored hash, the calls
    [_md5sum] makes on the stream, which are [md5sum_calls] (one
    [hashlib.md5] per block, then one of the concatenated digests). Otherwise
    it computes no hash. Besides the hashes its log holds the container
    fetch, the [get_object] and at most the final upload. *)
Theorem upload_hashes_contents_for_dedup (r : RCS) (id filename : string) (w : World) :
  rcs_filename r = Some filename -> truthy_str filename = true ->
  can_use_advanced_azure cfg = false -> st_pos (w_file w) = 0%nat ->
  st_detached (w_file w) = false -> container_fails get_container_error w = None ->
  let name := path_from_filename id filename in
  let data := st_data (w_file w) in
  let w' := snd (upload r id w) in
  let hashes := match w_container w !! name with
                | Some o =>
                    if bool_decide (compared_size w filename = obj_size o)
                    then HashlibMd5 data
                         :: (if String.eqb (Md5.hexdigest data) (obj_hash o) then []
                             else md5sum_calls data)
                    else []
                | None => []
                end in
  (forall w0, st_data (w_file w0) = data -> st_pos (w_file w0) = 0%nat ->
     st_detached (w_file w0) = false ->
     w_log (snd (_md5sum w0)) = w_log w0 ++ md5sum_calls data)
  /\ match dedup_decision w name filename with
     | Skip => w_log w' = w_log w ++ container_calls cfg w ++ GetObject name :: hashes
     | Proceed => w_log w' = w_log w ++ container_calls cfg w ++ GetObject name :: hashes
                              ++ [UploadObjectViaStream name data]
     end.
Proof.
  intros Hf Ht Haz Hp Hd Hc name data w' hashes. subst w'.
  split.
  - intros w0 H1 H2 H3. destruct (md5sum_run w0 H3) as [_ R]. rewrite R. cbn [w_log].
    unfold remaining. rewrite H1, H2. reflexivity.
  - rewrite (upload_via_file cfg munge_filename provider_hash guess_type get_container_error
               r id filename Hf Ht).
    destruct (upload_file_libcloud cfg munge_filename provider_hash guess_type
                get_container_error id filename w Haz Hc Hd)
      as (_ & _ & _ & _ & _ & _ & _ & up & Up & _ & _ & U4).
    fold name in U4. specialize (Up Hp). subst up.
    assert (Hh : hashed_bytes w filename = data).
    { unfold hashed_bytes, remaining. rewrite Hp. destruct (w_local w !! filename); reflexivity. }
    assert (Hds : dedup_hashes w name filename = hashes).
    { unfold dedup_hashes. rewrite Hh. reflexivity. }
    rewrite Hds in U4.
    destruct (dedup_decision w name filename); destruct U4 as (_ & U4 & _); rewrite U4;
      [reflexivity|]. rewrite <- !app_assoc. reflexivity.
Qed.

(** C2 (amended): with [use_secure_urls] and the advanced Azure path,
    [get_url_by_path] returns a READ shared-access URL for the blob expiring
    [secure_ttl] seconds after [utcnow()]; with the advanced AWS path
    instead, a presigned [get_object] URL with [ExpiresIn = secure_ttl].
    Both need [key] and [secret] among the driver options and raise
    [KeyError] without them. Otherwise it raises the error of the container
    fetch when [self.container] fails, returns [None] when no object exists
    at the path, and for an existing object returns the driver's
    [get_object_cdn_url], and when that raises [NotImplementedError], an
    https URL joined from the driver host, container and path for S3
    drivers, else the object's [extra["url"]], raising
    [NotImplementedError] when it has none. *)
Theorem get_url_by_path_cases (path : string) (w : World) :
  let res := fst (get_url_by_path path w) in
  let creds := bool_decide (is_Some (driver_options cfg !! "key"))
               && bool_decide (is_Some (driver_options cfg !! "secret")) in
  (use_secure_urls cfg = true -> can_use_advanced_azure cfg = true ->
     res = if creds
           then inr (Some (AzureSasUrl (container_name cfg) path (w_now w + secure_ttl cfg)))
           else inl KeyError)
  /\ (use_secure_urls cfg = true -> can_use_advanced_azure cfg = false ->
      can_use_advanced_aws cfg = true ->
      res = if creds
            then inr (Some (S3PresignedUrl (container_name cfg) path (secure_ttl cfg)
                             (driver_options cfg !! "region")))
            else inl KeyError)
  /\ ((can_use_advanced_azure cfg && use_secure_urls cfg) = false ->
      (can_use_advanced_aws cfg && use_secure_urls cfg) = false ->
      res = match container_fails get_container_error w with
            | Some e => inl e
            | None =>
                match w_container w !! path with
                | None => inr None
                | Some o =>
                    match get_object_cdn_url o with
                    | Some u => inr (Some (CdnUrl u))
                    | None =>
                        if str_in "S3" (driver_name cfg)
                        then inr (Some (JoinedUrl ("https://" ++ connection_host cfg)
                                                  (container_name cfg ++ "/" ++ path)))
                        else match obj_extra_url o with
                             | Some u => inr (Some (ExtraUrl u))
                             | None => inl NotImplementedError
                             end
                    end
                end
            end).
Proof.
  intros res creds. subst res creds.
  split; [|split].
  - intros Hs Ha. unfold Storage.get_url_by_path, credentials. rewrite Hs, Ha. cbn [andb].
    destruct (driver_options cfg !! "key"), (driver_options cfg !! "secret"); reflexivity.
  - intros Hs Ha Hw. unfold Storage.get_url_by_path, credentials. rewrite Hs, Ha, Hw.
    cbn [andb].
    destruct (driver_options cfg !! "key"), (driver_options cfg !! "secret"); reflexivity.
  - intros H1 H2. rewrite (get_url_by_path_lookup cfg get_object_cdn_url get_container_error
                             path w H1 H2).
    destruct (container_fails get_container_error w); reflexivity.
Qed.


(** C6: [upload] deletes from the container only when [clear_upload] was
    requested, an old filename was recorded at construction and
    [leave_files] is false (and no new file is being uploaded); with
    [leave_files] true it makes no [delete_object] call and every object of
    the container is still there afterwards. *)
Theorem upload_deletes_only_when_allowed (r : RCS) (id : string) (w : World) :
  let w' := snd (upload r id w) in
  exists l, w_log w' = w_log w ++ l
    /\ (leave_files cfg = true ->
        Forall (fun c => is_delete_call c = false) l
        /\ forall k, is_Some (w_container w !! k) -> is_Some (w_container w' !! k))
    /\ (Exists (fun c => is_delete_call c = true) l ->
        truthy (rcs_clear r) = true /\ opt_truthy (rcs_old_filename r) = true
        /\ leave_files cfg = false).
Proof.
  intros w'. subst w'.
  destruct (upload_deletes cfg munge_filename provider_hash guess_type get_container_error
              r id w) as [l [H1 [H2 H3]]].
  exists l. split; [exact H1|]. split.
  - intros Hleave.
    assert (Hna : delete_allowed cfg r = false)
      by (unfold delete_allowed; rewrite Hleave, !andb_false_r; reflexivity).
    split; [|exact (H3 Hna)].
    apply Forall_forall. intros x Hx.
    destruct (is_delete_call x) eqn:Hd; [|reflexivity].
    exfalso. assert (E : delete_allowed cfg r = true)
      by (apply H2, Exists_exists; exists x; auto).
    congruence.
  - intros Hex. specialize (H2 Hex). unfold delete_allowed in H2.
    apply andb_prop in H2 as [H2 H5]. apply andb_prop in H2 as [H2 H4].
    apply andb_prop in H2 as [_ H6]. apply negb_true_iff in H5. auto.
Qed.

(** C3: a resource constructed (the driver built without error) with an
    allowed upload whose filename [f] is non-empty gets
    [filename = munge_filename f], [url = munge_filename f] and
    [url_type = "upload"]; [upload] on a readable stream at offset 0 then
    returns normally, leaves the working directory alone and either stores
    the uploaded bytes in the container under
    [path_from_filename id filename] or finds an object already stored there
    that matches them in size and hash (the dedup of C1). On the Azure path
    the driver options are assumed to carry a key and a secret, on the
    libcloud path the container fetch to succeed. *)
Theorem resource_upload_stored_in_container
    (resource : Resource) (u : Upload) (f id : string) (w : World) :
  resource !! "upload" = Some (VUpload u) ->
  allowed_upload_filename (VUpload u) = Some f ->
  truthy_str (munge_filename f) = true ->
  driver_error = None ->
  st_pos (w_file w) = 0%nat ->
  st_detached (w_file w) = false ->
  (can_use_advanced_azure cfg = true ->
     is_Some (driver_options cfg !! "key") /\ is_Some (driver_options cfg !! "secret")) ->
  (can_use_advanced_azure cfg = false -> get_container_error = None) ->
  exists r res',
    fst (rcs_init cfg munge_filename driver_error resource w) = inr (r, res')
    /\ rcs_filename r = Some (munge_filename f)
    /\ res' !! "url" = Some (VStr (munge_filename f))
    /\ res' !! "url_type" = Some (VStr "upload")
    /\ let w1 := snd (rcs_init cfg munge_filename driver_error resource w) in
       let name := path_from_filename id (munge_filename f) in
       let data := st_data (w_file w) in
       let w2 := snd (upload r id w1) in
       fst (upload r id w1) = inr tt
       /\ w_local w2 = w_local w
       /\ (w_container w2 = <[name := stored provider_hash name data]> (w_container w)
           \/ (w_container w2 = w_container w
               /\ code_dedup_match w name (munge_filename f))).
Proof.
  intros Hu Hf Hm Hde Hp Hd Hcred Hgce.
  unfold rcs_init, cloud_storage_init, pop. rewrite Hde, Hu. cbn [default].
  cbv [Datatypes.id]. rewrite Hf. unfold_m. cbn [fst snd].
  eexists; eexists. split; [reflexivity|]. split; [reflexivity|].
  split; [rewrite !lookup_insert_ne by discriminate; apply lookup_insert_eq|].
  split; [rewrite lookup_insert_ne by discriminate; apply lookup_insert_eq|].
  cbn zeta. cbn [w_container w_local w_file w_db w_now w_log w_container_cached].
  rewrite (upload_via_file cfg munge_filename provider_hash guess_type get_container_error
             (mk_rcs (Some (munge_filename f)) None _) id (munge_filename f) eq_refl Hm).
  set (mf := munge_filename f). clearbody mf.
  set (w1 := mk_world (w_container w) (w_local w) (w_file w) (w_db w) (w_now w) (w_log w) false).
  destruct (can_use_advanced_azure cfg) eqn:Haz.
  - destruct (Hcred eq_refl) as [[k Hk] [sec Hs]].
    rewrite (upload_file_azure cfg munge_filename provider_hash guess_type get_container_error
               id mf w1 Haz), Hk, Hs.
    subst w1. cbn [w_file w_container w_local]. rewrite Hd. cbn [fst snd w_local w_container].
    unfold remaining. rewrite Hp. cbn [skipn].
    split; [reflexivity|]. split; [reflexivity|]. left. reflexivity.
  - assert (Hc : container_fails get_container_error w1 = None)
      by (unfold container_fails; subst w1; cbn; rewrite (Hgce eq_refl); reflexivity).
    destruct (upload_file_libcloud cfg munge_filename provider_hash guess_type
                get_container_error id mf w1 Haz Hc Hd)
      as (U1 & U2 & _ & _ & _ & _ & _ & up & Up & _ & _ & U4).
    specialize (Up Hp). subst up.
    pose proof (dedup_decision_skip w1 (path_from_filename id mf) mf Hp) as Hdk.
    split; [exact U1|]. split; [exact U2|].
    destruct (dedup_decision w1 _ mf) eqn:E; destruct U4 as [U4 _].
    + right. split; [exact U4|]. apply Hdk. reflexivity.
    + left. exact U4.
Qed.

End Adapter.

Lemma md5sum_multipart_digest_witness :
  st_detached (w_file world_fresh) = false
  /\ fst (_md5sum world_fresh) = inr (multipart_digest ab).
Proof.
  split; [reflexivity|].
  exact (proj1 (md5sum_multipart_digest world_fresh eq_refl)).
Defined.

(** C1 (counterexample): "ab" is stored at "resources/rid/f.txt" with its
    size and MD5 hex digest, so the claim has [upload] return without
    uploading; a 5-byte "f.txt" in the working directory makes the code
    compare 5 with 2 and upload "ab" again. *)
Lemma upload_dedup_counterexample :
  claimed_dedup_match world_shadowed "resources/rid/f.txt"
  /\ In (UploadObjectViaStream "resources/rid/f.txt" ab)
       (w_log (snd (upload cfg_s3 munge_plain etag_md5 no_mime None rcs_f "rid" world_shadowed))).
Proof.
  split.
  - exists obj_ab. split; [reflexivity|]. split; [reflexivity|left; reflexivity].
  - match goal with |- In ?x ?l =>
      assert (E : l = [GetContainer "bucket"; GetObject "resources/rid/f.txt"; x])
        by (vm_compute; reflexivity)
    end.
    rewrite E. right; right; left; reflexivity.
Qed.

Lemma upload_dedup_witness :
  fst (upload cfg_s3 munge_plain etag_md5 no_mime None rcs_f "rid" world_fresh) = inr tt
  /\ w_container (snd (upload cfg_s3 munge_plain etag_md5 no_mime None rcs_f "rid" world_fresh))
     = <["resources/rid/f.txt" := stored etag_md5 "resources/rid/f.txt" ab]> ∅.
Proof.
  destruct (upload_dedup_skip_or_upload cfg_s3 munge_plain etag_md5 no_mime None rcs_f
              "rid" "f.txt" world_fresh eq_refl eq_refl eq_refl eq_refl eq_refl eq_refl)
    as [H1 [_ H3]].
  split; [exact H1|]. apply H3. intros (o & H & _). vm_compute in H. discriminate H.
Defined.

Lemma resource_upload_stored_witness :
  exists r res',
    fst (rcs_init cfg_s3 munge_plain None resource_f world_fresh) = inr (r, res')
    /\ res' !! "url" = Some (VStr "f.txt")
    /\ res' !! "url_type" = Some (VStr "upload").
Proof.
  destruct (resource_upload_stored_in_container cfg_s3 munge_plain etag_md5 no_mime
              None None resource_f (FlaskFileStorage "f.txt") "f.txt" "rid" world_fresh
              eq_refl eq_refl eq_refl eq_refl eq_refl eq_refl
              (fun H => ltac:(discriminate H)) (fun _ => eq_refl))
    as (r & res' & H1 & _ & H3 & H4 & _).
  exists r, res'. split; [exact H1|]. split; [exact H3|exact H4].
Defined.

(** C4 (counterexample): with "ab" stored under its [_md5sum] digest,
    [upload] itself calls [hashlib.md5] on the uploaded bytes, then hashes the
    5 MiB blocks and their concatenated digests in [_md5sum], and skips the
    upload on that digest. *)
Lemma upload_hashes_contents_counterexample :
  w_log (snd (upload cfg_s3 munge_plain etag_md5 no_mime None rcs_f "rid" world_multipart))
  = [GetContainer "bucket"; GetObject "resources/rid/f.txt"; HashlibMd5 ab; HashlibMd5 ab;
     HashlibMd5 (Md5.digest ab)].
Proof. vm_compute. reflexivity. Qed.

Lemma upload_hashes_contents_witness :
  w_log (snd (_md5sum world_multipart)) = md5sum_calls ab
  /\ w_log (snd (upload cfg_s3 munge_plain etag_md5 no_mime None rcs_f "rid" world_multipart))
     = [GetContainer "bucket"; GetObject "resources/rid/f.txt"; HashlibMd5 ab]
       ++ md5sum_calls ab.
Proof.
  destruct (upload_hashes_contents_for_dedup cfg_s3 munge_plain etag_md5 no_mime None
              rcs_f "rid" "f.txt" world_multipart eq_refl eq_refl eq_refl eq_refl eq_refl eq_refl)
    as [H1 H2].
  split; [exact (H1 world_multipart eq_refl eq_refl eq_refl)|].
  vm_compute in H2. vm_compute. exact H2.
Defined.

(** C2 (counterexample): without secure URLs, [get_url_by_path] returns
    [None] for a path with no object, and on a Google Storage driver whose
    [get_object_cdn_url] is not implemented it raises [NotImplementedError]
    for an existing object with no [extra["url"]]; neither is a URL. *)
Lemma get_url_by_path_counterexample :
  fst (get_url_by_path cfg_s3 no_cdn None "resources/rid/f.txt" world_fresh) = inr None
  /\ fst (get_url_by_path cfg_gcs no_cdn None "resources/rid/f.txt" world_shadowed)
     = inl NotImplementedError.
Proof. split; vm_compute; reflexivity. Qed.



End Claims.

(** ** Further properties of the code *)
Module Extras.
Import Py Storage SpecDefs Examples Facts.

(** The step of [__init__] that [CloudStorage.__init__] takes when the driver
    is built: [self._container = None] *)
Ltac init_prefix w :=
  unfold rcs_init, cloud_storage_init; unfold mbind at 1, M_bind at 1;
  unfold set_cached, modify; cbn beta iota.

Section Paths.
Variable munge_filename : string -> string.

(** X1: For a non-empty resource id with no leading or trailing slash and a munged
    filename that is non-empty and has no leading slash, path_from_filename(rid, filename)
    is 'resources/' + rid + '/' + munge_filename(filename). *)
Theorem path_from_filename_layout (rid filename : string) :
  truthy_str rid = true -> starts_with_slash rid = false -> ends_with_slash rid = false ->
  truthy_str (munge_filename filename) = true ->
  starts_with_slash (munge_filename filename) = false ->
  path_from_filename munge_filename rid filename
  = ("resources/" ++ rid ++ "/" ++ munge_filename filename)%string.
Proof.
  intros H1 H2 H3 H4 H5. unfold path_from_filename, path_join. cbn [fold_left].
  rewrite H2, H5. cbn [negb truthy_str orb].
  replace (ends_with_slash "resources") with false by reflexivity. cbn [orb].
  replace (truthy_str ("resources" ++ "/" ++ rid)) with true by reflexivity.
  rewrite (ends_with_slash_app "resources" ("/" ++ rid) eq_refl).
  rewrite (ends_with_slash_app "/" rid H1), H3. reflexivity.
Qed.

(** X2: For every rid and filename, with m = munge_filename(filename) and p = rid when rid
    starts with a slash and 'resources/' + rid otherwise, path_from_filename(rid,
    filename) is m when m starts with a slash, p + m when p ends with a slash, and p + '/'
    + m otherwise (posixpath.join). So an empty rid gives 'resources/' + m, '/a/' gives
    '/a/' + m, and 'a/' gives 'resources/a/' + m. *)
Theorem path_from_filename_cases (rid filename : string) :
  let m := munge_filename filename in
  let p := if starts_with_slash rid then rid else ("resources/" ++ rid)%string in
  path_from_filename munge_filename rid filename
  = if starts_with_slash m then m
    else if ends_with_slash p then (p ++ m)%string else (p ++ "/" ++ m)%string.
Proof.
  intros m p. subst p. unfold path_from_filename, path_join. cbn [fold_left]. fold m.
  destruct (starts_with_slash rid) eqn:Hs.
  - assert (Ht : truthy_str rid = true) by (destruct rid; [discriminate|reflexivity]).
    rewrite Ht. reflexivity.
  - replace (negb (truthy_str "resources") || ends_with_slash "resources") with false
      by reflexivity.
    assert (Ht : truthy_str ("resources" ++ "/" ++ rid) = true) by reflexivity.
    rewrite Ht. reflexivity.
Qed.
End Paths.

Section Init.
Variable cfg : Config.
Variable munge_filename : string -> string.
Variable provider_hash : bytes -> string.
Variable guess_type : string -> option string.
Variable driver_error : option Exc.
Variable get_container_error : option ContainerError.


(** X4: When the driver is built without error, with no allowed file upload, a non-empty
    string multipart_name and the advanced AWS path, __init__ sets url to
    munge_filename(multipart_name), url_type to 'upload' and last_modified to utcnow(),
    and records no filename. The following upload makes no call and changes nothing. *)
Theorem rcs_init_multipart_then_upload_noop
    (resource : gmap string PyVal) (m id : string) (w : World) :
  driver_error = None ->
  allowed_upload_filename (default VNone (resource !! "upload")) = None ->
  resource !! "multipart_name" = Some (VStr m) -> truthy_str m = true ->
  can_use_advanced_aws cfg = true ->
  exists r res',
    rcs_init cfg munge_filename driver_error resource w = (inr (r, res'), uncached w)
    /\ rcs_filename r = None
    /\ res' !! "url" = Some (VStr (munge_filename m))
    /\ res' !! "url_type" = Some (VStr "upload")
    /\ res' !! "last_modified" = Some (VTime (w_now w))
    /\ upload cfg munge_filename provider_hash guess_type get_container_error r id (uncached w)
       = (inr tt, uncached w).
Proof.
  intros Hde Hu Hm Ht Haws. rewrite Hde. init_prefix w. unfold pop. cbn [fst snd]. rewrite Hu.
  rewrite lookup_delete_ne, lookup_delete_ne, Hm by discriminate.
  cbn [default]. cbv [Datatypes.id]. replace (truthy (VStr m)) with true by (symmetry; exact Ht).
  rewrite Haws. cbn [andb].
  unfold gets, mbind, M_bind, mret, M_ret.
  eexists _, _. split; [reflexivity|]. split; [reflexivity|].
  split; [map_simp; reflexivity|]. split; [map_simp; reflexivity|].
  split; [map_simp; reflexivity|].
  unfold upload, clear_old. cbn [rcs_filename rcs_old_filename opt_truthy].
  rewrite andb_false_r. reflexivity.
Qed.

(** X5: When the driver is built without error, with no allowed file upload, no multipart
    branch that applies, a truthy clear_upload and a non-empty string id, __init__ records
    the stored resource's url as old_filename and sets url_type to ''. It raises
    AttributeError when the database has no resource with that id. Either way it only
    resets the cached container. *)
Theorem rcs_init_clear_reads_old_url (resource : gmap string PyVal) (i : string) (w : World) :
  driver_error = None ->
  allowed_upload_filename (default VNone (resource !! "upload")) = None ->
  (truthy (default VNone (resource !! "multipart_name")) && can_use_advanced_aws cfg) = false ->
  truthy (default VNone (resource !! "clear_upload")) = true ->
  resource !! "id" = Some (VStr i) -> truthy_str i = true ->
  rcs_init cfg munge_filename driver_error resource w
  = (match w_db w !! i with
     | Some u => inr (mk_rcs None (Some u) (default VNone (resource !! "clear_upload")),
                      <["url_type" := VStr ""]> (popped resource))
     | None => inl AttributeError
     end, uncached w).
Proof.
  intros Hde Hu Hm Hc Hi Ht. rewrite Hde. init_prefix w. unfold pop. cbn [fst snd]. rewrite Hu.
  rewrite !lookup_delete_ne by discriminate. rewrite Hm, Hc, Hi. cbn [default truthy andb].
  cbv [Datatypes.id]. cbn [truthy andb]. rewrite Ht. unfold gets, mbind, M_bind, mret, M_ret, raise.
  cbn [w_db uncached]. destruct (w_db w !! i); reflexivity.
Qed.

(** X16: When the driver is built without error, for a resource with no allowed file
    upload (such as a link whose upload field is an empty string), a falsy multipart_name
    and a falsy clear_upload, __init__ only removes those three keys, resets the cached
    container and records no filename. The following upload makes no call and changes
    nothing. *)
Theorem rcs_init_without_file_is_noop (resource : gmap string PyVal) (id : string) (w : World) :
  driver_error = None ->
  allowed_upload_filename (default VNone (resource !! "upload")) = None ->
  truthy (default VNone (resource !! "multipart_name")) = false ->
  truthy (default VNone (resource !! "clear_upload")) = false ->
  exists r,
    rcs_init cfg munge_filename driver_error resource w = (inr (r, popped resource), uncached w)
    /\ rcs_filename r = None
    /\ upload cfg munge_filename provider_hash guess_type get_container_error r id (uncached w)
       = (inr tt, uncached w).
Proof.
  intros Hde Hu Hm Hc. rewrite Hde. init_prefix w. unfold pop. cbn [fst snd]. rewrite Hu.
  rewrite !lookup_delete_ne by discriminate. rewrite Hm, Hc. cbn [andb].
  unfold mret, M_ret. eexists. split; [reflexivity|]. split; [reflexivity|].
  unfold upload, clear_old. cbn [rcs_filename rcs_clear]. rewrite Hc. reflexivity.
Qed.

(** X6: When upload has no filename, the clear flag is truthy, old_filename is non-empty
    and leave_files is false, upload first accesses self.container. If fetching the
    container fails, upload raises that error after the get_container call and changes
    nothing else. Otherwise it calls get_object on path_from_filename(id, old_filename)
    and deletes exactly that object when one exists, and returns normally in both cases.
    This assumes every object is stored under its own name. *)
Theorem upload_clear_deletes_old_object (r : RCS) (id old : string) (w : World) :
  opt_truthy (rcs_filename r) = false -> truthy (rcs_clear r) = true ->
  rcs_old_filename r = Some old -> truthy_str old = true -> leave_files cfg = false ->
  names_consistent (w_container w) ->
  let name := path_from_filename munge_filename id old in
  upload cfg munge_filename provider_hash guess_type get_container_error r id w
  = match container_fails get_container_error w with
    | Some e => (inl e, logged w (container_calls cfg w))
    | None =>
        (inr tt, mk_world (delete name (w_container w)) (w_local w) (w_file w) (w_db w)
                   (w_now w)
                   (w_log w ++ container_calls cfg w ++ GetObject name
                              :: match w_container w !! name with
                                 | Some _ => [DeleteObject name]
                                 | None => []
                                 end) true)
    end.
Proof.
  intros Hf Hc Ho Ht Hl Hn name.
  rewrite (upload_via_clear cfg munge_filename provider_hash guess_type get_container_error
             r id Hf), (clear_old_run cfg munge_filename get_container_error r id w).
  rewrite Hc, Ho. cbn [opt_truthy default]. rewrite Ht, Hl. cbn [andb negb].
  cbv [Datatypes.id]. fold name.
  destruct (container_fails get_container_error w); [reflexivity|].
  destruct (w_container w !! name) as [o|] eqn:Eo.
  - rewrite (Hn name o Eo). reflexivity.
  - rewrite (delete_id _ _ Eo), load_container_eq. unfold logged. cbn.
    rewrite <- app_assoc. reflexivity.
Qed.
End Init.

Section Upload2.
Variable cfg : Config.
Variable munge_filename : string -> string.
Variable provider_hash : bytes -> string.
Variable guess_type : string -> option string.
Variable get_container_error : option ContainerError.

(** X8: On the advanced Azure path, upload does no existence or hash check and does not
    access self.container. If key and secret are set and the stream is readable, it makes
    exactly one create_blob_from_stream call, which writes the rest of the stream to
    path_from_filename(id, filename) in the configured container; the call passes the
    guessed content type only when guess_mimetype is set. On a detached stream it raises
    ValueError, and if key or secret is missing it raises KeyError, both before any call.
    *)
Theorem upload_azure_no_dedup (r : RCS) (id f : string) (w : World) :
  rcs_filename r = Some f -> truthy_str f = true -> can_use_advanced_azure cfg = true ->
  let name := path_from_filename munge_filename id f in
  let s := w_file w in
  let data := remaining s in
  let ct := if guess_mimetype cfg then guess_type f else None in
  upload cfg munge_filename provider_hash guess_type get_container_error r id w
  = match driver_options cfg !! "key", driver_options cfg !! "secret" with
    | Some _, Some _ =>
        if st_detached s then (inl ValueError, w)
        else (inr tt, mk_world (<[name := stored provider_hash name data]> (w_container w))
                        (w_local w) (moved s (st_pos s + length data)) (w_db w) (w_now w)
                        (w_log w ++ [CreateBlobFromStream (container_name cfg) name data ct])
                        (w_container_cached w))
    | _, _ => (inl KeyError, w)
    end.
Proof.
  intros Hf Ht Haz name s data ct.
  rewrite (upload_via_file cfg munge_filename provider_hash guess_type get_container_error
             r id f Hf Ht).
  exact (upload_file_azure cfg munge_filename provider_hash guess_type get_container_error
           id f w Haz).
Qed.

(** X9: On the libcloud path, with a readable stream and a container fetched without
    error, upload with no object at the path makes the get_container call if the container
    is not cached yet, calls get_object and then uploads the stream from its current
    offset. If an object of a different size exists and no working-directory file has the
    upload's name, it uploads the whole stream, because the size check seeks back to 0. *)
Theorem upload_stream_offset (r : RCS) (id f : string) (w : World) :
  rcs_filename r = Some f -> truthy_str f = true -> can_use_advanced_azure cfg = false ->
  container_fails get_container_error w = None -> st_detached (w_file w) = false ->
  let name := path_from_filename munge_filename id f in
  let d := st_data (w_file w) in
  let w' := snd (upload cfg munge_filename provider_hash guess_type get_container_error r id w) in
  (w_container w !! name = None ->
     w_log w' = w_log w ++ container_calls cfg w
                ++ [GetObject name; UploadObjectViaStream name (remaining (w_file w))])
  /\ (forall o, w_container w !! name = Some o -> w_local w !! f = None ->
      obj_size o <> Z.of_nat (length d) ->
      w_log w' = w_log w ++ container_calls cfg w
                 ++ [GetObject name; UploadObjectViaStream name d]).
Proof.
  intros Hf Ht Haz Hc Hd name d w'. subst w'.
  rewrite (upload_via_file cfg munge_filename provider_hash guess_type get_container_error
             r id f Hf Ht).
  destruct (upload_file_libcloud cfg munge_filename provider_hash guess_type
              get_container_error id f w Haz Hc Hd)
    as (_ & _ & _ & _ & _ & _ & _ & up & _ & U2 & U3 & U4).
  fold name in U2, U3, U4. split.
  - intros Hn. specialize (U2 Hn). subst up.
    assert (E : dedup_decision w name f = Proceed) by (unfold dedup_decision; rewrite Hn; reflexivity).
    assert (E' : dedup_hashes w name f = []) by (unfold dedup_hashes; rewrite Hn; reflexivity).
    rewrite E in U4. destruct U4 as (_ & U4 & _). rewrite U4, E', <- !app_assoc. reflexivity.
  - intros o Ho Hl Hs. specialize (U3 Hl (ltac:(rewrite Ho; eexists; reflexivity))). subst up.
    assert (Hcs : compared_size w f = Z.of_nat (length d))
      by (unfold compared_size; rewrite Hl; reflexivity).
    assert (E : dedup_decision w name f = Proceed).
    { unfold dedup_decision. rewrite Ho, Hcs, bool_decide_false; [reflexivity|].
      intros Eq. apply Hs. symmetry. exact Eq. }
    assert (E' : dedup_hashes w name f = []).
    { unfold dedup_hashes. rewrite Ho, Hcs, bool_decide_false; [reflexivity|].
      intros Eq. apply Hs. symmetry. exact Eq. }
    rewrite E in U4. destruct U4 as (_ & U4 & _). rewrite U4, E', <- !app_assoc. reflexivity.
Qed.

(** X10: On the libcloud path, for a plain (not SpooledTemporaryFile) readable stream at
    offset 0, a container fetched without error, no working-directory file named like the
    upload, and a provider that stores the MD5 hex digest of single-part uploads: after
    one upload the stream can be rewound, and a second upload uploads nothing. The second
    call leaves the container unchanged and makes only get_object and hashlib calls. *)
Theorem upload_again_skips (r : RCS) (id f : string) (w : World) :
  rcs_filename r = Some f -> truthy_str f = true -> can_use_advanced_azure cfg = false ->
  container_fails get_container_error w = None ->
  st_pos (w_file w) = 0%nat -> st_spooled (w_file w) = false ->
  st_detached (w_file w) = false -> w_local w !! f = None ->
  provider_hash (st_data (w_file w)) = Md5.hexdigest (st_data (w_file w)) ->
  let name := path_from_filename munge_filename id f in
  let up := upload cfg munge_filename provider_hash guess_type get_container_error r id in
  let w1 := snd (seek_set0 (snd (up w))) in
  fst (seek_set0 (snd (up w))) = inr tt
  /\ fst (up w1) = inr tt
  /\ w_container (snd (up w1)) = w_container w1
  /\ exists l, w_log (snd (up w1)) = w_log w1 ++ GetObject name :: l
               /\ Forall (fun c => is_hash_call c = true) l.
Proof.
  intros Hf Ht Haz Hc Hp Hsp Hd Hl Hh name up w1. subst up w1.
  rewrite !(upload_via_file cfg munge_filename provider_hash guess_type get_container_error
              r id f Hf Ht).
  set (w' := snd (upload_file cfg munge_filename provider_hash guess_type get_container_error
                    id f w)).
  destruct (upload_file_libcloud cfg munge_filename provider_hash guess_type
              get_container_error id f w Haz Hc Hd)
    as (_ & Hloc & _ & _ & Hca & Hdat & _ & up & Hup & _ & _ & Hdec).
  fold name w' in Hloc, Hca, Hdat, Hdec. specialize (Hup Hp). subst up.
  assert (Hd' : st_detached (w_file w') = false).
  { destruct (dedup_decision w name f); destruct Hdec as (_ & _ & Hdd); congruence. }
  assert (Hseek : seek_set0 w'
                  = (inr tt, mk_world (w_container w') (w_local w') (moved (w_file w') 0)
                               (w_db w') (w_now w') (w_log w') (w_container_cached w'))).
  { unfold seek_set0, live_file. unfold_m. rewrite Hd'. reflexivity. }
  rewrite Hseek. cbn [fst snd]. split; [reflexivity|].
  set (w1 := mk_world (w_container w') (w_local w') (moved (w_file w') 0)
                      (w_db w') (w_now w') (w_log w') (w_container_cached w')).
  assert (Hc1 : container_fails get_container_error w1 = None)
    by (unfold container_fails; cbn; rewrite Hca; reflexivity).
  assert (Hcc : container_calls cfg w1 = [])
    by (unfold container_calls; cbn; rewrite Hca; reflexivity).
  assert (Hskip : dedup_decision w1 name f = Skip).
  { apply dedup_decision_skip; [reflexivity|].
    assert (Hcs : compared_size w1 f = Z.of_nat (length (st_data (w_file w)))).
    { unfold compared_size. cbn. rewrite Hloc, Hl, Hdat. reflexivity. }
    destruct (dedup_decision w name f) eqn:Hdw; destruct Hdec as [Hcont _].
    - apply dedup_decision_skip in Hdw; [|exact Hp].
      destruct Hdw as (o & Ho & Hs & Hh').
      exists o. cbn. rewrite Hcont, Hdat. split; [exact Ho|]. split; [|exact Hh'].
      rewrite Hcs, Hs. unfold compared_size. rewrite Hl. reflexivity.
    - exists (stored provider_hash name (st_data (w_file w))). cbn. rewrite Hcont, Hdat.
      split; [apply lookup_insert_eq|]. split; [rewrite Hcs; reflexivity|].
      left. exact Hh. }
  destruct (upload_file_libcloud cfg munge_filename provider_hash guess_type
              get_container_error id f w1 Haz Hc1 Hd')
    as (Hok & _ & _ & _ & _ & _ & _ & up & _ & _ & _ & Hdec1).
  fold name in Hdec1. rewrite Hskip, Hcc in Hdec1. destruct Hdec1 as (Hc2 & Hlog1 & _).
  split; [exact Hok|]. split; [exact Hc2|].
  exists (dedup_hashes w1 name f). split; [exact Hlog1|apply dedup_hashes_hash].
Qed.

(** X17: On the libcloud path, when the upload stream is a SpooledTemporaryFile
    (werkzeug's default), the container fetch succeeds and the dedup check decides to
    upload, upload returns normally but detaches the stream's underlying file. A second
    upload with the same object then raises ValueError after its get_object call, without
    changing the container. *)
Theorem upload_spooled_detached_then_fails (r : RCS) (id f : string) (w : World) :
  rcs_filename r = Some f -> truthy_str f = true -> can_use_advanced_azure cfg = false ->
  container_fails get_container_error w = None ->
  st_spooled (w_file w) = true -> st_detached (w_file w) = false ->
  dedup_decision w (path_from_filename munge_filename id f) f = Proceed ->
  let up := upload cfg munge_filename provider_hash guess_type get_container_error r id in
  let w1 := snd (up w) in
  fst (up w) = inr tt
  /\ st_detached (w_file w1) = true
  /\ up w1 = (inl ValueError,
              logged w1 [GetObject (path_from_filename munge_filename id f)]).
Proof.
  intros Hf Ht Haz Hc Hsp Hd Hdec up w1. subst up w1.
  rewrite !(upload_via_file cfg munge_filename provider_hash guess_type get_container_error
              r id f Hf Ht).
  destruct (upload_file_libcloud cfg munge_filename provider_hash guess_type
              get_container_error id f w Haz Hc Hd)
    as (Hok & _ & _ & _ & Hca & _ & _ & up & _ & _ & _ & U4).
  rewrite Hdec in U4. destruct U4 as (_ & _ & Hdd). rewrite Hsp in Hdd.
  split; [exact Hok|]. split; [exact Hdd|].
  set (w' := snd (upload_file cfg munge_filename provider_hash guess_type get_container_error
                    id f w)) in *.
  assert (Hc1 : container_fails get_container_error w' = None)
    by (unfold container_fails; rewrite Hca; reflexivity).
  rewrite (upload_file_detached cfg munge_filename provider_hash guess_type get_container_error
             id f w' Haz Hc1 Hdd).
  rewrite (load_container_cached cfg w' Hca). reflexivity.
Qed.

End Upload2.

Section Url2.
Variable cfg : Config.
Variable get_object_cdn_url : CloudObject -> option string.
Variable get_container_error : option ContainerError.

(** X11: With use_secure_urls and an advanced Azure or AWS path, get_url_by_path makes no
    container call and changes nothing. If key and secret are set it returns the signed
    URL: on Azure a READ SAS URL for the container and path expiring secure_ttl seconds
    after utcnow(), otherwise an S3 presigned get_object URL for the container and path
    with ExpiresIn = secure_ttl. If key or secret is missing it raises KeyError, whether
    or not an object exists at the path. *)
Theorem get_url_secure_no_lookup (path : string) (w : World) :
  use_secure_urls cfg = true ->
  (can_use_advanced_azure cfg || can_use_advanced_aws cfg) = true ->
  get_url_by_path cfg get_object_cdn_url get_container_error path w
  = (match driver_options cfg !! "key", driver_options cfg !! "secret" with
     | Some _, Some _ =>
         inr (Some (if can_use_advanced_azure cfg
                    then AzureSasUrl (container_name cfg) path (w_now w + secure_ttl cfg)
                    else S3PresignedUrl (container_name cfg) path (secure_ttl cfg)
                           (driver_options cfg !! "region")))
     | _, _ => inl KeyError
     end, w).
Proof.
  intros Hs Hadv. unfold get_url_by_path, credentials. rewrite Hs, !andb_true_r.
  unfold gets, mbind, M_bind, mret, M_ret, raise.
  destruct (can_use_advanced_azure cfg); [|cbn in Hadv; rewrite Hadv];
    destruct (driver_options cfg !! "key"), (driver_options cfg !! "secret"); reflexivity.
Qed.

End Url2.

(** X13: can_use_advanced_azure and can_use_advanced_aws are never both true. *)
Theorem advanced_azure_aws_exclusive (cfg : Config) :
  can_use_advanced_azure cfg = true -> can_use_advanced_aws cfg = false.
Proof.
  unfold can_use_advanced_azure, can_use_advanced_aws.
  destruct (String.eqb_spec (driver_name cfg) "AZURE_BLOBS") as [->|]; [|discriminate].
  reflexivity.
Qed.

(** X15: When the rest of a readable stream is non-empty and at most AWS_UPLOAD_PART_SIZE
    bytes, _md5sum returns the MD5 hex digest of the raw MD5 digest of those bytes
    followed by '-1'. *)
Theorem md5sum_single_part (w : World) :
  st_detached (w_file w) = false ->
  (0 < length (remaining (w_file w)) <= N.to_nat AWS_UPLOAD_PART_SIZE)%nat ->
  fst (_md5sum w)
  = inr (Md5.hexdigest (Md5.digest (remaining (w_file w))) ++ "-1")%string.
Proof.
  intros Hd Hl. destruct (md5sum_run w Hd) as [H _]. rewrite H. f_equal.
  unfold multipart_digest, blocks_of.
  destruct (remaining (w_file w)) as [|x r] eqn:E; [cbn in Hl; lia|].
  destruct (take_N_short AWS_UPLOAD_PART_SIZE (x :: r) ltac:(lia)) as [H1 H2].
  cbn [part_blocks]. rewrite H1, H2. cbn [length].
  destruct (length r); cbn [part_blocks map concat length]; rewrite app_nil_r; reflexivity.
Qed.

Section Container.
Variable cfg : Config.
Variable get_container_error : option ContainerError.

(** X18: self.container calls get_container at most once while it succeeds: two accesses
    in a row behave as one, and once the container is cached an access makes no call and
    changes nothing. A failed fetch makes one get_container call, raises its error and
    caches nothing, so the next access fetches again and fails the same way. *)
Theorem container_fetched_once (w : World) :
  (container cfg get_container_error;; container cfg get_container_error) w
  = container cfg get_container_error w
  /\ (w_container_cached w = true -> container cfg get_container_error w = (inr tt, w))
  /\ (forall e, container_fails get_container_error w = Some e ->
      container cfg get_container_error w
      = (inl e, logged w [GetContainer (container_name cfg)])
      /\ container_fails get_container_error (logged w [GetContainer (container_name cfg)])
         = Some e).
Proof.
  split; [|split].
  - rewrite container_seq, (container_run cfg get_container_error w).
    destruct (container_fails get_container_error w) eqn:Hc; [reflexivity|].
    rewrite container_run, container_fails_load, load_container_idem. reflexivity.
  - intros Hca. rewrite container_run.
    unfold container_fails. rewrite Hca, load_container_cached by exact Hca. reflexivity.
  - intros e Hc. rewrite container_run, Hc.
    assert (Hca : w_container_cached w = false)
      by (unfold container_fails in Hc; destruct (w_container_cached w); congruence).
    unfold container_calls. rewrite Hca. split; [reflexivity|].
    unfold container_fails, logged in *. cbn. rewrite Hca in *. exact Hc.
Qed.
End Container.

Lemma path_from_filename_layout_witness :
  path_from_filename munge_plain "rid" "f.txt" = "resources/rid/f.txt"%string.
Proof.
  exact (path_from_filename_layout munge_plain "rid" "f.txt" eq_refl eq_refl eq_refl eq_refl
           eq_refl).
Defined.

Lemma path_from_filename_cases_witness :
  path_from_filename munge_plain "/a/" "f.txt" = "/a/f.txt"%string
  /\ path_from_filename munge_plain "" "f.txt" = "resources/f.txt"%string
  /\ path_from_filename munge_plain "a/" "f.txt" = "resources/a/f.txt"%string.
Proof.
  split_and!; rewrite path_from_filename_cases; reflexivity.
Defined.

Lemma rcs_init_multipart_witness :
  exists r res',
    rcs_init cfg_s3_signed munge_plain None resource_multipart world_fresh
    = (inr (r, res'), world_fresh)
    /\ res' !! "url" = Some (VStr "big.csv")
    /\ upload cfg_s3_signed munge_plain etag_md5 no_mime None r "rid" world_fresh
       = (inr tt, world_fresh).
Proof.
  destruct (rcs_init_multipart_then_upload_noop cfg_s3_signed munge_plain etag_md5 no_mime
              None None resource_multipart "big.csv" "rid" world_fresh
              eq_refl eq_refl eq_refl eq_refl eq_refl)
    as (r & res' & H1 & _ & H3 & _ & _ & H6).
  exists r, res'. split; [exact H1|]. split; [exact H3|exact H6].
Defined.

Lemma rcs_init_clear_witness :
  rcs_init cfg_s3 munge_plain None resource_clear world_stored
  = (inr (mk_rcs None (Some "f.txt") (VStr "true"),
          <["url_type" := VStr ""]> (popped resource_clear)), world_stored).
Proof.
  exact (rcs_init_clear_reads_old_url cfg_s3 munge_plain None resource_clear "rid" world_stored
           eq_refl eq_refl eq_refl eq_refl eq_refl eq_refl).
Defined.

Lemma rcs_init_without_file_witness :
  exists r,
    rcs_init cfg_s3 munge_plain None resource_link world_fresh
    = (inr (r, popped resource_link), world_fresh)
    /\ upload cfg_s3 munge_plain etag_md5 no_mime None r "rid" world_fresh
       = (inr tt, world_fresh).
Proof.
  destruct (rcs_init_without_file_is_noop cfg_s3 munge_plain etag_md5 no_mime None None
              resource_link "rid" world_fresh eq_refl eq_refl eq_refl eq_refl)
    as (r & H1 & _ & H3).
  exists r. split; [exact H1|exact H3].
Defined.

Lemma upload_clear_deletes_witness :
  upload cfg_s3 munge_plain etag_md5 no_mime None rcs_clear_f "rid" world_stored
  = (inr tt, mk_world ∅ ∅ (mk_stream [] 0 false false) {[ "rid" := "f.txt" ]} 0
               [GetContainer "bucket"; GetObject "resources/rid/f.txt";
                DeleteObject "resources/rid/f.txt"] true).
Proof.
  rewrite (upload_clear_deletes_old_object cfg_s3 munge_plain etag_md5 no_mime None
             rcs_clear_f "rid" "f.txt" world_stored eq_refl eq_refl eq_refl eq_refl eq_refl
             ltac:(unfold names_consistent, world_stored, obj_ab; cbn;
                   apply map_Forall_singleton; reflexivity)).
  vm_compute. reflexivity.
Defined.

Lemma upload_azure_no_dedup_witness :
  upload cfg_azure munge_plain etag_md5 mime_text None rcs_f "rid" world_shadowed
  = (inr tt, mk_world {[ "resources/rid/f.txt" := stored etag_md5 "resources/rid/f.txt" ab ]}
               {[ "f.txt" := 5 ]} (mk_stream ab 2 true false) ∅ 0
               [CreateBlobFromStream "container" "resources/rid/f.txt" ab (Some "text/plain")]
               false).
Proof.
  rewrite (upload_azure_no_dedup cfg_azure munge_plain etag_md5 mime_text None rcs_f "rid"
             "f.txt" world_shadowed eq_refl eq_refl eq_refl).
  vm_compute. reflexivity.
Defined.

Lemma upload_stream_offset_witness :
  w_log (snd (upload cfg_s3 munge_plain etag_md5 no_mime None rcs_f "rid" world_offset))
  = [GetContainer "bucket"; GetObject "resources/rid/f.txt";
     UploadObjectViaStream "resources/rid/f.txt" [Byte.x62]].
Proof.
  destruct (upload_stream_offset cfg_s3 munge_plain etag_md5 no_mime None rcs_f "rid" "f.txt"
              world_offset eq_refl eq_refl eq_refl eq_refl eq_refl) as [H _].
  rewrite (H eq_refl). reflexivity.
Defined.

Lemma upload_again_skips_witness :
  w_container (snd (upload cfg_s3 munge_plain etag_md5 no_mime None rcs_f "rid"
     (snd (seek_set0 (snd (upload cfg_s3 munge_plain etag_md5 no_mime None rcs_f "rid"
                              world_plain))))))
  = {[ "resources/rid/f.txt" := obj_ab ]}.
Proof.
  destruct (upload_again_skips cfg_s3 munge_plain etag_md5 no_mime None rcs_f "rid" "f.txt"
              world_plain eq_refl eq_refl eq_refl eq_refl eq_refl eq_refl eq_refl eq_refl
              ltac:(reflexivity))
    as (_ & _ & H & _).
  etransitivity; [exact H|]. vm_compute. reflexivity.
Defined.

Lemma upload_spooled_detached_witness :
  fst (upload cfg_s3 munge_plain etag_md5 no_mime None rcs_f "rid"
         (snd (upload cfg_s3 munge_plain etag_md5 no_mime None rcs_f "rid" world_fresh)))
  = inl ValueError.
Proof.
  destruct (upload_spooled_detached_then_fails cfg_s3 munge_plain etag_md5 no_mime None rcs_f
              "rid" "f.txt" world_fresh eq_refl eq_refl eq_refl eq_refl eq_refl eq_refl eq_refl)
    as (_ & _ & H).
  rewrite H. reflexivity.
Defined.


Lemma get_url_secure_no_lookup_witness :
  get_url_by_path cfg_s3_signed no_cdn None "resources/rid/f.txt" world_fresh
  = (inr (Some (S3PresignedUrl "bucket" "resources/rid/f.txt" 3600 None)), world_fresh).
Proof.
  exact (get_url_secure_no_lookup cfg_s3_signed no_cdn None "resources/rid/f.txt"
           world_fresh eq_refl eq_refl).
Defined.

Lemma advanced_azure_aws_exclusive_witness :
  can_use_advanced_azure cfg_azure = true /\ can_use_advanced_aws cfg_azure = false.
Proof. split; [reflexivity|exact (advanced_azure_aws_exclusive cfg_azure eq_refl)]. Defined.

Lemma md5sum_single_part_witness :
  fst (_md5sum world_fresh) = inr (Md5.hexdigest (Md5.digest ab) ++ "-1")%string.
Proof.
  apply md5sum_single_part; [reflexivity|].
  change (length (remaining (w_file world_fresh))) with 2%nat.
  unfold AWS_UPLOAD_PART_SIZE. lia.
Defined.

End Extras.
